(** * supabase-crud: the session guard, the query builder and the
      mutation handlers of the Express application, embedded in Rocq.

    The development follows the latest revision of the server (the one with
    [express-session] and [bcrypt]): every route handler is a program in a
    small free monad whose effects are the calls the JavaScript code awaits
    (a Supabase query, a [bcrypt] call, [console.error]).  The store and
    [bcrypt] are collaborators: their replies are chosen by an environment,
    so every statement below holds for every behaviour of the store.

    Conventions of the embedding:
    - a parameter of a request (a field of [req.query], [req.body] or
      [req.params]) is absent or a string, and [req.body] is an object.
      Requests with an array or an object as a parameter (a repeated or
      bracketed key), on which [trim] is not a function and the handler
      throws, are outside the embedding: no statement below is about them;
    - an awaited query never rejects: the client library reports a failure
      in the [error] field of its result; a [bcrypt] promise may reject;
    - a response is the call made on [res] ([redirect], [render] with its
      locals, [send] with its status); the views themselves are outside. *)

From stdpp Require Import gmap strings list fin_maps.

Local Open Scope Z_scope.
Local Open Scope string_scope.
Local Open Scope list_scope.

(** ** JavaScript strings and values *)

(** A JavaScript string is a sequence of UTF-16 code units. *)
Abbreviation jsstring := (list N).

(** The code units of an ASCII literal of the source. *)
Definition lit (s : string) : jsstring :=
  Ascii.N_of_ascii <$> String.list_ascii_of_string s.

Inductive jsval : Type :=
| VUndef
| VNull
| VBool (b : bool)
| VNum (n : Z)
| VStr (s : jsstring).

#[global] Instance jsval_eq_dec : EqDecision jsval.
Proof. solve_decision. Defined.

(** ToBoolean. *)
Definition truthy (v : jsval) : bool :=
  match v with
  | VUndef | VNull => false
  | VBool b => b
  | VNum n => negb (n =? 0)%Z
  | VStr s => negb (bool_decide (s = []))
  end.

(** A request parameter ([req.query.x], [req.body.x], [req.params.x]) is
    either absent ([undefined]) or a string. *)
Definition of_param (p : option jsstring) : jsval :=
  match p with
  | None => VUndef
  | Some s => VStr s
  end.

(** [`${p}`]: interpolation inside a template literal. *)
Definition interpolate (p : option jsstring) : jsstring :=
  match p with
  | None => lit "undefined"
  | Some s => s
  end.

(** [a || b] *)
Definition js_or (a b : jsval) : jsval := if truthy a then a else b.

(** WhiteSpace and LineTerminator code points of ECMAScript, the ones
    [String.prototype.trim] strips. *)
Definition is_white_space (c : N) : bool :=
  (bool_decide (c ∈ [9; 10; 11; 12; 13; 32; 160; 5760; 8232; 8233; 8239;
                     8287; 12288; 65279]%N))
  || ((8192 <=? c)%N && (c <=? 8202)%N).

Fixpoint trim_start (s : jsstring) : jsstring :=
  match s with
  | [] => []
  | c :: s' => if is_white_space c then trim_start s' else s
  end.

Definition trim_end (s : jsstring) : jsstring :=
  reverse (trim_start (reverse s)).

Definition trim (s : jsstring) : jsstring := trim_end (trim_start s).

(** A JavaScript object with string-named properties (a row of a table, the
    session's user, an object literal). *)
Abbreviation object := (gmap string jsval).

(** [o.k]: a missing property reads as [undefined]. *)
Definition get (o : object) (k : string) : jsval := default VUndef (o !! k).

(** ** The Supabase query builder

    A query is built by chaining calls; each call of the chain appends one
    modifier.  The value that is finally awaited is the request sent to the
    store. *)

Inductive modifier : Type :=
| Ilike (column : jsstring) (pattern : jsstring)
| Eq (column : jsstring) (value : jsval)
| Or (filters : jsstring)
| Order (column : jsstring) (ascending : bool)
| Limit (count : Z).

Inductive operation : Type :=
| Select (columns : string)
| Insert (rows : list object)
| Update (values : object)
| Delete.

Record builder : Type := Builder {
  table : string;
  op : operation;
  mods : list modifier
}.

#[global] Instance modifier_eq_dec : EqDecision modifier.
Proof. solve_decision. Defined.
#[global] Instance operation_eq_dec : EqDecision operation.
Proof. solve_decision. Defined.
#[global] Instance builder_eq_dec : EqDecision builder.
Proof. solve_decision. Defined.

(** [supabase.from(t).select(c)], [.insert(rows)], [.update(v)],
    [.delete()] *)
Definition select (t : string) (c : string) : builder :=
  Builder t (Select c) [].
Definition insert (t : string) (rows : list object) : builder :=
  Builder t (Insert rows) [].
Definition update (t : string) (v : object) : builder :=
  Builder t (Update v) [].
Definition delete_ (t : string) : builder := Builder t Delete [].

Definition chain (m : modifier) (q : builder) : builder :=
  Builder (table q) (op q) (mods q ++ [m]).

Definition ilike (column : string) (pattern : jsstring)
  : builder -> builder :=
  chain (Ilike (lit column) pattern).
Definition eq_ (column : string) (value : jsval) : builder -> builder :=
  chain (Eq (lit column) value).
Definition or_ (filters : jsstring) : builder -> builder := chain (Or filters).
Definition limit (n : Z) : builder -> builder := chain (Limit n).

(** [.order(column, { ascending })]; when the options are omitted the
    client library sorts ascending. *)
Definition order (column : jsstring) (ascending : option bool)
  : builder -> builder :=
  chain (Order column (default true ascending)).

(** The store answers with [{ data, error }]. *)
Record pg_error : Type := PgError { message : jsstring }.

Record result (A : Type) : Type := Result {
  data : option A;
  error : option pg_error
}.
Arguments Result {A} _ _.
Arguments data {A} _.
Arguments error {A} _.

#[global] Instance pg_error_eq_dec : EqDecision pg_error.
Proof. solve_decision. Defined.

(** ** Handler programs

    What a handler does between a request and its response: it awaits
    queries and [bcrypt] calls, may throw, and logs with [console.error]. *)

Inductive exn : Type :=
| StoreError (e : pg_error)       (* [throw error] of a query result *)
| BcryptError.                    (* a rejected [bcrypt] promise *)

Inductive prog (A : Type) : Type :=
| Ret (a : A)
| Throw (e : exn)
| Await (q : builder) (k : result (list object) -> prog A)
| AwaitSingle (q : builder) (k : result object -> prog A)
| BcryptHash (data : jsval) (rounds : Z) (k : option jsstring -> prog A)
| BcryptCompare (data : jsval) (hash : jsval) (k : option bool -> prog A)
| ConsoleError (e : exn) (k : prog A).
Arguments Ret {A} _.
Arguments Throw {A} _.
Arguments Await {A} _ _.
Arguments AwaitSingle {A} _ _.
Arguments BcryptHash {A} _ _ _.
Arguments BcryptCompare {A} _ _ _.
Arguments ConsoleError {A} _ _.

Fixpoint bind {A B} (p : prog A) (f : A -> prog B) : prog B :=
  match p with
  | Ret a => f a
  | Throw e => Throw e
  | Await q k => Await q (fun r => bind (k r) f)
  | AwaitSingle q k => AwaitSingle q (fun r => bind (k r) f)
  | BcryptHash d n k => BcryptHash d n (fun r => bind (k r) f)
  | BcryptCompare d h k => BcryptCompare d h (fun r => bind (k r) f)
  | ConsoleError e k => ConsoleError e (bind k f)
  end.

#[global] Instance prog_ret : MRet prog := @Ret.
#[global] Instance prog_bind : MBind prog := fun A B f p => bind p f.

(** [try { p } catch (err) { h err }] *)
Fixpoint try_catch {A} (p : prog A) (h : exn -> prog A) : prog A :=
  match p with
  | Ret a => Ret a
  | Throw e => h e
  | Await q k => Await q (fun r => try_catch (k r) h)
  | AwaitSingle q k => AwaitSingle q (fun r => try_catch (k r) h)
  | BcryptHash d n k => BcryptHash d n (fun r => try_catch (k r) h)
  | BcryptCompare d hs k => BcryptCompare d hs (fun r => try_catch (k r) h)
  | ConsoleError e k => ConsoleError e (try_catch k h)
  end.

(** [await q], [await q.single()] *)
Definition await (q : builder) : prog (result (list object)) := Await q Ret.
Definition await_single (q : builder) : prog (result object) :=
  AwaitSingle q Ret.

(** [await bcrypt.hash(data, rounds)], [await bcrypt.compare(data, hash)]:
    a rejected promise is thrown at the [await]. *)
Definition bcrypt_hash (d : jsval) (rounds : Z) : prog jsstring :=
  BcryptHash d rounds
    (fun r => match r with Some h => Ret h | None => Throw BcryptError end).
Definition bcrypt_compare (d : jsval) (h : jsval) : prog bool :=
  BcryptCompare d h
    (fun r => match r with Some b => Ret b | None => Throw BcryptError end).

Definition console_error (e : exn) : prog unit := ConsoleError e (Ret tt).

(** ** Running a handler against its collaborators *)

Inductive event : Type :=
| EvQuery (q : builder) (r : result (list object))
| EvSingle (q : builder) (r : result object)
| EvHash (data : jsval) (rounds : Z) (r : option jsstring)
| EvCompare (data : jsval) (hash : jsval) (r : option bool)
| EvLog (e : exn).

(** The collaborators: each reply may depend on everything that happened
    before (the store changes, [bcrypt] salts are random). *)
Record env : Type := Env {
  store : list event -> builder -> result (list object);
  store_single : list event -> builder -> result object;
  hash_reply : list event -> jsval -> Z -> option jsstring;
  compare_reply : list event -> jsval -> jsval -> option bool
}.

(** [run E tr p]: the events so far followed by those of [p], and what [p]
    ends with: a value, or an exception nobody caught. *)
Fixpoint run {A} (E : env) (tr : list event) (p : prog A)
  : list event * (exn + A) :=
  match p with
  | Ret a => (tr, inr a)
  | Throw e => (tr, inl e)
  | Await q k =>
      let r := store E tr q in run E (tr ++ [EvQuery q r]) (k r)
  | AwaitSingle q k =>
      let r := store_single E tr q in run E (tr ++ [EvSingle q r]) (k r)
  | BcryptHash d n k =>
      let r := hash_reply E tr d n in run E (tr ++ [EvHash d n r]) (k r)
  | BcryptCompare d h k =>
      let r := compare_reply E tr d h in
      run E (tr ++ [EvCompare d h r]) (k r)
  | ConsoleError e k => run E (tr ++ [EvLog e]) k
  end.

(** ** Requests, sessions and responses *)

Record request : Type := Request {
  query : gmap string jsstring;     (* req.query *)
  body : gmap string jsstring;      (* req.body *)
  params : gmap string jsstring     (* req.params *)
}.

(** [req.session]: [user] is [undefined] until a login assigns it. *)
Record session : Type := Session { user : option object }.

(** [req.session.user || null] *)
Definition user_or_null (s : session) : option object := user s.

Inductive local : Type :=
| LRows (d : option (list object))
| LRow (d : option object)
| LUser (u : option object)
| LFilters (f : list (string * option jsstring)).

Inductive payload : Type :=
| Text (s : string)               (* a literal of the source *)
| Str (s : jsstring).             (* [error.message] *)

Inductive response : Type :=
| Redirect (url : string)                            (* res.redirect(url) *)
| Render (view : string) (locals : list (string * local))
| Send (status : Z) (b : payload).          (* res.status(n).send(b) *)

(** [res.send(b)] answers with status 200. *)
Definition send (b : payload) : response := Send 200 b.

Definition handler : Type := request -> session -> prog (session * response).

Notation "q |> f" := (f q) (at level 45, left associativity, only parsing).

(** ** Access guard *)

(** [function requireAuth(req, res, next)] *)
Definition requireAuth (next : handler) : handler := fun req s =>
  match user s with
  | None => Ret (s, Redirect "/login")
  | Some _ => next req s
  end.

(** ** Landing page, registration, login, logout *)

(** [app.get('/', ...)] *)
Definition get_root : handler := fun req s =>
  Ret (s, Render "index" [("user", LUser (user_or_null s))]).

(** [app.get('/register', ...)] *)
Definition get_register : handler := fun req s =>
  Ret (s, Render "register" [("user", LUser (user_or_null s))]).

(** The combined existence check of the registration. *)
Definition existing_user_query (email username : option jsstring) : builder :=
  select "users" "*"
  |> or_ (lit "email.eq." ++ interpolate email
          ++ lit ",username.eq." ++ interpolate username)%list.

(** [existingUser && existingUser.length > 0] *)
Definition has_rows (d : option (list object)) : bool :=
  match d with
  | None => false
  | Some rows => bool_decide (0 < Z.of_nat (length rows))
  end.

Definition insert_user_query (username email : option jsstring)
    (password_hash : jsstring) : builder :=
  insert "users"
    [ {[ "username" := of_param username;
         "email" := of_param email;
         "password_hash" := VStr password_hash ]} ].

(** [app.post('/register', ...)] *)
Definition post_register : handler := fun req s =>
  let username := body req !! "username" in
  let email := body req !! "email" in
  let password := body req !! "password" in
  try_catch
    (r ← await (existing_user_query email username);
     let existingUser := data r in
     if has_rows existingUser then
       Ret (s, Send 400
                (Text "Пользователь с таким email или именем уже существует."))
     else
       password_hash ← bcrypt_hash (of_param password) 10;
       r' ← await (insert_user_query username email password_hash);
       match error r' with
       | Some e => Throw (StoreError e)
       | None => Ret (s, Redirect "/login")
       end)
    (fun err =>
       console_error err;;
       Ret (s, Send 500 (Text "Ошибка при регистрации."))).

(** [app.get('/login', ...)] *)
Definition get_login : handler := fun req s =>
  Ret (s, Render "login" [("user", LUser (user_or_null s))]).

Definition user_by_email_query (email : option jsstring) : builder :=
  select "users" "*" |> eq_ "email" (of_param email) |> limit 1.

(** [{ id: user.id, username: user.username, email: user.email }] *)
Definition user_projection (u : object) : object :=
  {[ "id" := get u "id";
     "username" := get u "username";
     "email" := get u "email" ]}.

(** [app.post('/login', ...)] *)
Definition post_login : handler := fun req s =>
  let email := body req !! "email" in
  let password := body req !! "password" in
  try_catch
    (r ← await (user_by_email_query email);
     match error r with
     | Some e => Throw (StoreError e)
     | None =>
         match data r with
         | None | Some [] => Ret (s, Send 400 (Text "Пользователь не найден."))
         | Some (u :: _) =>
             validPassword ←
               bcrypt_compare (of_param password) (get u "password_hash");
             if negb validPassword then
               Ret (s, Send 401 (Text "Неверный пароль."))
             else
               Ret (Session (Some (user_projection u)), Redirect "/")
         end
     end)
    (fun err =>
       console_error err;;
       Ret (s, Send 500 (Text "Ошибка при входе."))).

(** [app.get('/logout', ...)]: [req.session.destroy] *)
Definition get_logout : handler := fun req s =>
  Ret (Session None, Redirect "/").

(** ** Client records: listing *)

(** [p && p.trim() !== ''] *)
Definition non_blank (p : option jsstring) : bool :=
  match p with
  | None => false
  | Some s => truthy (VStr s) && negb (bool_decide (trim s = []))
  end.

(** [`%${p.trim()}%`] *)
Definition pattern_of (p : option jsstring) : jsstring :=
  (lit "%" ++ trim (interpolate p) ++ lit "%")%list.

(** [p === 'literal'] *)
Definition strict_eq (p : option jsstring) (l : string) : bool :=
  bool_decide (p = Some (lit l)).

(** The [query] variable of the listing handler, when it is awaited. *)
Definition clients_query (rq : gmap string jsstring) : builder :=
  let search := rq !! "search" in
  let status := rq !! "status" in
  let phone := rq !! "phone" in
  let sort_by := rq !! "sort_by" in
  let sort_order := rq !! "sort_order" in
  let query :=
    select "clients" "
      *,
      client_status:status_id (name)
    " in
  let query :=
    if non_blank search
    then query |> ilike "full_name" (pattern_of search)
    else query in
  let query :=
    if truthy (of_param status) && negb (strict_eq status "all")
    then query |> eq_ "status_id" (of_param status)
    else query in
  let query :=
    if non_blank phone
    then query |> ilike "phone_number" (pattern_of phone)
    else query in
  if truthy (of_param sort_by) then
    let order_ := if strict_eq sort_order "desc" then false else true in
    if strict_eq sort_by "status"
    then query |> order (lit "client_status(name)") (Some order_)
    else query |> order (interpolate sort_by) (Some order_)
  else
    query |> order (lit "id") None.

Definition statuses_query : builder :=
  select "client_status" "*" |> order (lit "id") None.

(** [filters: { search, status, phone, sort_by, sort_order }] *)
Definition filters_of (rq : gmap string jsstring)
  : list (string * option jsstring) :=
  (fun k => (k, rq !! k))
    <$> ["search"; "status"; "phone"; "sort_by"; "sort_order"].

(** [app.get('/clients', requireAuth, ...)], without its guard. *)
Definition get_clients : handler := fun req s =>
  r ← await (clients_query (query req));
  match error r with
  | Some e => Ret (s, send (Str (message e)))
  | None =>
      let clients := data r in
      r' ← await statuses_query;
      match error r' with
      | Some statusError => Ret (s, send (Str (message statusError)))
      | None =>
          let statuses := data r' in
          Ret (s, Render "clients/index"
                    [("clients", LRows clients);
                     ("statuses", LRows statuses);
                     ("user", LUser (user_or_null s));
                     ("filters", LFilters (filters_of (query req)))])
      end
  end.

(** ** Client records: forms and mutations *)

(** [app.get('/clients/new', requireAuth, ...)] *)
Definition get_clients_new : handler := fun req s =>
  r ← await statuses_query;
  match error r with
  | Some e => Ret (s, send (Str (message e)))
  | None =>
      Ret (s, Render "clients/new"
                [("statuses", LRows (data r));
                 ("user", LUser (user_or_null s))])
  end.

(** [{ full_name, phone_number, status_id: status_id || null }] *)
Definition client_values (b : gmap string jsstring) : object :=
  let full_name := b !! "full_name" in
  let phone_number := b !! "phone_number" in
  let status_id := b !! "status_id" in
  {[ "full_name" := of_param full_name;
     "phone_number" := of_param phone_number;
     "status_id" := js_or (of_param status_id) VNull ]}.

Definition insert_client_query (b : gmap string jsstring) : builder :=
  insert "clients" [client_values b].

(** [app.post('/clients', requireAuth, ...)] *)
Definition post_clients : handler := fun req s =>
  r ← await (insert_client_query (body req));
  match error r with
  | Some e => Ret (s, send (Str (message e)))
  | None => Ret (s, Redirect "/clients")
  end.

Definition client_by_id_query (id : option jsstring) : builder :=
  select "clients" "*" |> eq_ "id" (of_param id).

(** [app.get('/clients/:id/edit', requireAuth, ...)] *)
Definition get_clients_edit : handler := fun req s =>
  let id := params req !! "id" in
  r ← await_single (client_by_id_query id);
  match error r with
  | Some clientError => Ret (s, send (Str (message clientError)))
  | None =>
      let client := data r in
      r' ← await statuses_query;
      match error r' with
      | Some statusError => Ret (s, send (Str (message statusError)))
      | None =>
          Ret (s, Render "clients/edit"
                    [("client", LRow client);
                     ("statuses", LRows (data r'));
                     ("user", LUser (user_or_null s))])
      end
  end.

Definition update_client_query (id : option jsstring)
    (b : gmap string jsstring) : builder :=
  update "clients" (client_values b) |> eq_ "id" (of_param id).

(** [app.put('/clients/:id', requireAuth, ...)] *)
Definition put_clients : handler := fun req s =>
  let id := params req !! "id" in
  r ← await (update_client_query id (body req));
  match error r with
  | Some e => Ret (s, send (Str (message e)))
  | None => Ret (s, Redirect "/clients")
  end.

Definition delete_client_query (id : option jsstring) : builder :=
  delete_ "clients" |> eq_ "id" (of_param id).

(** [app.delete('/clients/:id', requireAuth, ...)] *)
Definition delete_clients : handler := fun req s =>
  let id := params req !! "id" in
  r ← await (delete_client_query id);
  match error r with
  | Some e => Ret (s, send (Str (message e)))
  | None => Ret (s, Redirect "/clients")
  end.

(** ** The application: its routes *)

Inductive route : Type :=
| GetRoot | GetRegister | PostRegister | GetLogin | PostLogin | GetLogout
| GetClients | GetClientsNew | PostClients | GetClientsEdit | PutClients
| DeleteClients.

#[global] Instance route_eq_dec : EqDecision route.
Proof. solve_decision. Defined.

(** The function of the route, as written after the path (and after the
    guard, where there is one). *)
Definition route_handler (r : route) : handler :=
  match r with
  | GetRoot => get_root
  | GetRegister => get_register
  | PostRegister => post_register
  | GetLogin => get_login
  | PostLogin => post_login
  | GetLogout => get_logout
  | GetClients => get_clients
  | GetClientsNew => get_clients_new
  | PostClients => post_clients
  | GetClientsEdit => get_clients_edit
  | PutClients => put_clients
  | DeleteClients => delete_clients
  end.

(** The routes as the application registers them. *)
Definition app (r : route) : handler :=
  match r with
  | GetRoot => get_root
  | GetRegister => get_register
  | PostRegister => post_register
  | GetLogin => get_login
  | PostLogin => post_login
  | GetLogout => get_logout
  | GetClients => requireAuth get_clients
  | GetClientsNew => requireAuth get_clients_new
  | PostClients => requireAuth post_clients
  | GetClientsEdit => requireAuth get_clients_edit
  | PutClients => requireAuth put_clients
  | DeleteClients => requireAuth delete_clients
  end.

(** The client-records operations: list, new-form, create, edit-form,
    update, delete. *)
Definition client_routes : list route :=
  [GetClients; GetClientsNew; PostClients; GetClientsEdit; PutClients;
   DeleteClients].

(** ** Configuration *)

(** [secret: process.env.SESSION_SECRET || 'supersecretkey'] *)
Definition session_secret (SESSION_SECRET : option jsstring) : jsval :=
  js_or (of_param SESSION_SECRET) (VStr (lit "supersecretkey")).

(** [const PORT = process.env.PORT || 3000] *)
Definition PORT (env_PORT : option jsstring) : jsval :=
  js_or (of_param env_PORT) (VNum 3000).

(** ** The revisions before the sessions

    [src/index.js] is the first revision of the server and the second
    listing of the latest file is the revision that added the filters.
    Neither has a session: their handlers see the request only, and no
    route has a guard.  The queries of their mutations and the query of the
    filtered listing are written as in the latest revision. *)

Module IndexJs.

(** [app.get('/', ...)] *)
Definition get_root (req : request) : prog response :=
  Ret (Render "index" []).

(** [app.get('/clients', ...)] *)
Definition get_clients (req : request) : prog response :=
  r ← await (select "clients" "
      *,
      client_status:status_id (name)
    " |> order (lit "id") None);
  match error r with
  | Some e => Ret (send (Str (message e)))
  | None => Ret (Render "clients/index" [("clients", LRows (data r))])
  end.

(** [app.get('/clients/new', ...)] *)
Definition get_clients_new (req : request) : prog response :=
  r ← await statuses_query;
  match error r with
  | Some e => Ret (send (Str (message e)))
  | None => Ret (Render "clients/new" [("statuses", LRows (data r))])
  end.

(** [app.post('/clients', ...)] *)
Definition post_clients (req : request) : prog response :=
  r ← await (insert_client_query (body req));
  match error r with
  | Some e => Ret (send (Str (message e)))
  | None => Ret (Redirect "/clients")
  end.

(** [app.get('/clients/:id/edit', ...)] *)
Definition get_clients_edit (req : request) : prog response :=
  let id := params req !! "id" in
  r ← await_single (client_by_id_query id);
  match error r with
  | Some clientError => Ret (send (Str (message clientError)))
  | None =>
      let client := data r in
      r' ← await statuses_query;
      match error r' with
      | Some statusError => Ret (send (Str (message statusError)))
      | None =>
          Ret (Render "clients/edit"
                 [("client", LRow client); ("statuses", LRows (data r'))])
      end
  end.

(** [app.put('/clients/:id', ...)] *)
Definition put_clients (req : request) : prog response :=
  let id := params req !! "id" in
  r ← await (update_client_query id (body req));
  match error r with
  | Some e => Ret (send (Str (message e)))
  | None => Ret (Redirect "/clients")
  end.

(** [app.delete('/clients/:id', ...)] *)
Definition delete_clients (req : request) : prog response :=
  let id := params req !! "id" in
  r ← await (delete_client_query id);
  match error r with
  | Some e => Ret (send (Str (message e)))
  | None => Ret (Redirect "/clients")
  end.

End IndexJs.

Module Filters.

(** [app.get('/clients', ...)] of the revision with the filters; its other
    routes are those of [IndexJs]. *)
Definition get_clients (req : request) : prog response :=
  r ← await (clients_query (query req));
  match error r with
  | Some e => Ret (send (Str (message e)))
  | None =>
      let clients := data r in
      r' ← await statuses_query;
      match error r' with
      | Some statusError => Ret (send (Str (message statusError)))
      | None =>
          let statuses := data r' in
          Ret (Render "clients/index"
                 [("clients", LRows clients);
                  ("statuses", LRows statuses);
                  ("filters", LFilters (filters_of (query req)))])
      end
  end.

End Filters.

(** ** Vocabulary of the statements *)

(** A string made of white space only (the empty string is one). *)
Definition blank (s : jsstring) : Prop :=
  Forall (fun c => is_white_space c = true) s.

(** A string that does not start with white space. *)
Definition starts_clean (s : jsstring) : Prop :=
  match s with
  | [] => True
  | c :: _ => is_white_space c = false
  end.

(** The sort clauses of a query, in the order they were chained. *)
Definition sort_clauses (q : builder) : list (jsstring * bool) :=
  omap (fun m => match m with Order c a => Some (c, a) | _ => None end)
       (mods q).

(** What a listing answers with, leaving aside the [filters] object that
    echoes the raw parameters to the view: the records, the status choices,
    the session's user, or the message of a failure. *)
Definition listing (o : exn + session * response)
  : exn + session * response :=
  match o with
  | inr (s, Render view locals) =>
      inr (s, Render view
                (filter (fun kv => negb (String.eqb kv.1 "filters")) locals))
  | _ => o
  end.

(** Two sets of query parameters give the same listing: the same query is
    sent to the store and, whatever the store and the session are, the same
    events happen and the same result is answered. *)
Definition same_listing (rq1 rq2 : gmap string jsstring) : Prop :=
  clients_query rq1 = clients_query rq2
  /\ forall (E : env) (tr : list event) (b p : gmap string jsstring)
       (s : session),
       (run E tr (app GetClients (Request rq1 b p) s)).1
       = (run E tr (app GetClients (Request rq2 b p) s)).1
       /\ listing (run E tr (app GetClients (Request rq1 b p) s)).2
          = listing (run E tr (app GetClients (Request rq2 b p) s)).2.

(** The read of the status collection is among the events. *)
Definition status_read (tr : list event) : Prop :=
  exists r, EvQuery statuses_query r ∈ tr.

(** An event that writes a user row. *)
Definition is_user_insert (e : event) : bool :=
  match e with
  | EvQuery (Builder "users" (Insert _) _) _ => true
  | _ => false
  end.

(** A user row collides with a registration: its email or its username is
    the one given. *)
Definition collides (email username : option jsstring) (u : object) : bool :=
  bool_decide (get u "email" = VStr (interpolate email))
  || bool_decide (get u "username" = VStr (interpolate username)).

(** The answers of a rejected registration and of the two failed logins. *)
Definition conflict : response :=
  Send 400 (Text "Пользователь с таким email или именем уже существует.").
Definition not_found : response := Send 400 (Text "Пользователь не найден.").
Definition unauthorized : response := Send 401 (Text "Неверный пароль.").

(** One request served by the application takes the session from [s] to
    [s'], whatever the route, the request and the collaborators. *)
Definition step (s s' : session) : Prop :=
  exists (E : env) (tr : list event) (r : route) (req : request)
         (tr' : list event) (resp : response),
    run E tr (app r req s) = (tr', inr (s', resp)).

(** A session starts without a user. *)
Inductive reachable : session -> Prop :=
| reachable_fresh : reachable (Session None)
| reachable_step (s s' : session) :
    reachable s -> step s s' -> reachable s'.

Definition holds_password_hash (s : session) : Prop :=
  exists u, user s = Some u /\ is_Some (u !! "password_hash").

(** The user of a session is absent or a projection made by a login. *)
Definition projected (s : session) : Prop :=
  user s = None \/ exists u, user s = Some (user_projection u).

(** The query of an event of the store, and the failure it reports. *)
Definition event_query (ev : event) : option builder :=
  match ev with
  | EvQuery q _ | EvSingle q _ => Some q
  | _ => None
  end.

Definition store_error (ev : event) : option pg_error :=
  match ev with
  | EvQuery _ r => error r
  | EvSingle _ r => error r
  | _ => None
  end.

(** The queries a run sent to the store, in order. *)
Definition queries (tr : list event) : list builder := omap event_query tr.

(** The routes registered with [app.get]. *)
Definition is_get (r : route) : bool :=
  match r with
  | GetRoot | GetRegister | GetLogin | GetLogout
  | GetClients | GetClientsNew | GetClientsEdit => true
  | _ => false
  end.

Definition is_write (o : operation) : bool :=
  match o with
  | Select _ => false
  | _ => true
  end.

(** A response without the [user] local that came with the sessions, and
    the outcome of a handler seen by a revision that has no session. *)
Definition without_user (resp : response) : response :=
  match resp with
  | Render view locals =>
      Render view (filter (fun kv => negb (String.eqb kv.1 "user")) locals)
  | _ => resp
  end.

Definition forget_session (o : exn + session * response) : exn + response :=
  match o with
  | inl e => inl e
  | inr (_, resp) => inr (without_user resp)
  end.

(** The answer of a registration or a login that failed for a reason the
    user is not told. *)
Definition register_failed : response :=
  Send 500 (Text "Ошибка при регистрации.").
Definition login_failed : response := Send 500 (Text "Ошибка при входе.").

(** The listing of the first revision. *)
Definition plain_listing_query : builder :=
  Builder "clients"
    (Select "
      *,
      client_status:status_id (name)
    ")
    [Order (lit "id") true].

(** ** Collaborators used as examples *)

(** A store that is down: every query fails. *)
Definition store_down : env :=
  Env (fun _ _ => Result None (Some (PgError (lit "fetch failed"))))
      (fun _ _ => Result None (Some (PgError (lit "fetch failed"))))
      (fun _ _ _ => None)
      (fun _ _ _ => None).

(** A store whose reads fail while its writes succeed. *)
Definition reads_fail : env :=
  Env (fun _ q =>
         match op q with
         | Select _ => Result None (Some (PgError (lit "failed to parse")))
         | _ => Result None None
         end)
      (fun _ _ => Result None (Some (PgError (lit "failed to parse"))))
      (fun _ _ _ => Some (lit "$2b$10$xyz"))
      (fun _ _ _ => Some false).

(** A user row, and a store whose reads all answer with the given rows;
    its bcrypt accepts the password ["secret"]. *)
Definition ann : object :=
  {[ "id" := VNum 1;
     "username" := VStr (lit "ann");
     "email" := VStr (lit "ann@example.org");
     "password_hash" := VStr (lit "$2b$10$abc") ]}.

Definition store_of (users : list object) : env :=
  Env (fun _ q =>
         match op q with
         | Select _ => Result (Some users) None
         | _ => Result None None
         end)
      (fun _ _ => Result None None)
      (fun _ _ _ => Some (lit "$2b$10$xyz"))
      (fun _ d _ => Some (bool_decide (d = VStr (lit "secret")))).

(** A store whose first read succeeds and whose later reads time out. *)
Definition second_read_fails : env :=
  Env (fun tr _ =>
         match tr with
         | [] => Result (Some []) None
         | _ => Result None (Some (PgError (lit "timeout")))
         end)
      (fun _ _ => Result None None)
      (fun _ _ _ => None)
      (fun _ _ _ => None).

Ltac lookups :=
  rewrite ?lookup_insert_eq, ?lookup_delete_eq;
  rewrite ?lookup_insert_ne, ?lookup_delete_ne by done.

(** Case analysis of a run, on every reply the handler looks at. *)
Ltac run_cases H :=
  cbn in H;
  repeat (match type of H with
          | context [match ?x with _ => _ end] => destruct x eqn:?
          end; cbn in H);
  injection H as <- <- <-.

Ltac goal_cases :=
  cbn;
  repeat (match goal with
          | |- context [match ?x with _ => _ end] => destruct x eqn:?
          end; cbn).

(** Membership in an explicit list, and in the list of the client routes. *)
Ltac elem_cases H :=
  repeat (apply elem_of_cons in H as [H|H]; [try discriminate H |]);
  try (by apply elem_of_nil in H).

Ltac not_client_route H :=
  exfalso;
  repeat (apply elem_of_cons in H as [H|H]; [discriminate |]);
  by apply elem_of_nil in H.

(** * Properties *)
(** ** Strings *)

Lemma trim_start_blank (s : jsstring) : trim_start s = [] <-> blank s.
Proof.
  unfold blank. induction s as [|c s IH]; simpl.
  - split; [constructor | reflexivity].
  - destruct (is_white_space c) eqn:Hc.
    + rewrite IH. split.
      * intros H. by constructor.
      * by inversion 1.
    + split; [discriminate |].
      inversion 1; congruence.
Qed.

Lemma trim_blank (s : jsstring) : blank s -> trim s = [].
Proof.
  intros H. unfold trim, trim_end.
  apply trim_start_blank in H. by rewrite H.
Qed.

(** ** Access guard *)

Lemma requireAuth_anonymous (next : handler) (req : request) (s : session) :
  user s = None -> requireAuth next req s = Ret (s, Redirect "/login").
Proof. intros H. unfold requireAuth. by rewrite H. Qed.

Lemma requireAuth_authenticated (next : handler) (req : request)
    (s : session) :
  is_Some (user s) -> requireAuth next req s = next req s.
Proof. intros [u H]. unfold requireAuth. by rewrite H. Qed.

Lemma client_routes_guarded (r : route) :
  r ∈ client_routes -> app r = requireAuth (route_handler r).
Proof.
  unfold client_routes. intros H.
  destruct r; try reflexivity; exfalso;
    repeat (apply elem_of_cons in H as [H|H]; [discriminate |]);
    by apply elem_of_nil in H.
Qed.

(** C1. On each of the six client-records routes (list, new-form, create,
    edit-form, update, delete): a request whose session holds no user is
    answered by the redirect to [/login] and nothing else happens (the
    program is that one answer, so running it adds no event, neither a read
    nor a write of the store, and leaves the session as it was); a request
    whose session holds a user runs exactly the route's own function on the
    same request and session. *)
Theorem C1_guard_redirects_or_passes (r : route) (req : request)
    (s : session) :
  r ∈ client_routes ->
  (user s = None ->
     app r req s = Ret (s, Redirect "/login")
     /\ forall (E : env) (tr : list event),
          run E tr (app r req s) = (tr, inr (s, Redirect "/login")))
  /\ (is_Some (user s) -> app r req s = route_handler r req s).
Proof.
  intros Hr. rewrite (client_routes_guarded r Hr). split.
  - intros Hs. rewrite (requireAuth_anonymous _ _ _ Hs).
    split; [reflexivity | intros E tr; reflexivity].
  - apply requireAuth_authenticated.
Qed.

Lemma C1_guard_witness :
  (app GetClients (Request ∅ ∅ ∅) (Session None)
     = Ret (Session None, Redirect "/login")
   /\ forall (E : env) (tr : list event),
        run E tr (app GetClients (Request ∅ ∅ ∅) (Session None))
        = (tr, inr (Session None, Redirect "/login")))
  /\ app PutClients (Request ∅ ∅ ∅) (Session (Some ∅))
     = put_clients (Request ∅ ∅ ∅) (Session (Some ∅)).
Proof.
  split.
  - refine (proj1 (C1_guard_redirects_or_passes GetClients (Request ∅ ∅ ∅)
                     (Session None) _) _).
    + unfold client_routes. apply list_elem_of_here.
    + reflexivity.
  - refine (proj2 (C1_guard_redirects_or_passes PutClients (Request ∅ ∅ ∅)
                     (Session (Some ∅)) _) _).
    + unfold client_routes. do 4 apply list_elem_of_further.
      apply list_elem_of_here.
    + simpl. eexists. reflexivity.
Defined.

(** The revisions before the sessions have no guard: their listing reads
    the store for every request. *)
Remark IndexJs_get_clients_reads (E : env) (req : request) :
  exists q r,
    table q = "clients"
    /\ (run E [] (IndexJs.get_clients req)).1 = [EvQuery q r].
Proof.
  unfold IndexJs.get_clients. cbn.
  match goal with |- context [error ?x] => destruct (error x) end;
    eexists _, _; (split; [| reflexivity]); reflexivity.
Qed.

Remark Filters_get_clients_reads (E : env) (req : request) :
  exists r rest,
    (run E [] (Filters.get_clients req)).1
    = EvQuery (clients_query (query req)) r :: rest.
Proof.
  unfold Filters.get_clients. cbn.
  destruct (error (store E [] _)); cbn; [eexists _, _; reflexivity |].
  match goal with |- context [error ?x] => destruct (error x) end;
    eexists _, _; reflexivity.
Qed.

(** ** Listing query: sorting *)

Lemma sort_clauses_select (t c : string) : sort_clauses (select t c) = [].
Proof. reflexivity. Qed.

Lemma sort_clauses_chain (m : modifier) (q : builder) :
  sort_clauses (chain m q)
  = sort_clauses q
    ++ match m with Order c a => [(c, a)] | _ => [] end.
Proof.
  unfold sort_clauses, chain. simpl. rewrite omap_app.
  by destruct m.
Qed.

Lemma sort_clauses_ilike (c : string) (p : jsstring) (q : builder) :
  sort_clauses (ilike c p q) = sort_clauses q.
Proof. unfold ilike. rewrite sort_clauses_chain. apply app_nil_r. Qed.

Lemma sort_clauses_eq (c : string) (v : jsval) (q : builder) :
  sort_clauses (eq_ c v q) = sort_clauses q.
Proof. unfold eq_. rewrite sort_clauses_chain. apply app_nil_r. Qed.

Lemma sort_clauses_order (c : jsstring) (a : option bool) (q : builder) :
  sort_clauses (order c a q) = sort_clauses q ++ [(c, default true a)].
Proof. unfold order. by rewrite sort_clauses_chain. Qed.

Lemma sort_clauses_if (b : bool) (f : builder -> builder) (q : builder) :
  (forall q', sort_clauses (f q') = sort_clauses q') ->
  sort_clauses (if b then f q else q) = sort_clauses q.
Proof. intros H. destruct b; [apply H | reflexivity]. Qed.

(** The sort clause of the listing query, by cases on [sort_by] and
    [sort_order]. *)
Lemma clients_query_sort (rq : gmap string jsstring) :
  sort_clauses (clients_query rq)
  = if truthy (of_param (rq !! "sort_by")) then
      [(if strict_eq (rq !! "sort_by") "status"
        then lit "client_status(name)"
        else interpolate (rq !! "sort_by"),
        negb (strict_eq (rq !! "sort_order") "desc"))]
    else [(lit "id", true)].
Proof.
  unfold clients_query.
  destruct (truthy (of_param (rq !! "sort_by")));
    [destruct (strict_eq (rq !! "sort_by") "status") |];
    rewrite sort_clauses_order;
    rewrite !sort_clauses_if
      by (intros; first [apply sort_clauses_ilike | apply sort_clauses_eq]);
    rewrite sort_clauses_select; simpl;
    try reflexivity;
    by destruct (strict_eq (rq !! "sort_order") "desc").
Qed.

(** The listing always reads the clients joined with the name of their
    status. *)
Lemma clients_query_select (rq : gmap string jsstring) :
  table (clients_query rq) = "clients"
  /\ op (clients_query rq)
     = Select "
      *,
      client_status:status_id (name)
    ".
Proof.
  unfold clients_query.
  repeat match goal with
         | |- context [if ?b then _ else _] => destruct b
         end; split; reflexivity.
Qed.

(** C2. The sort clause of the listing query: with [sort_by] equal to
    ["status"] it is the name of the joined status,
    [client_status(name)], which is not the foreign-key column
    [status_id]; with any other sort key it is that key itself, as a
    column of the client record; with no sort key (also an empty one, which
    the handler takes as none) it is [id], ascending. *)
Theorem C2_sort_column (rq : gmap string jsstring) :
  (rq !! "sort_by" = Some (lit "status") ->
     exists asc,
       sort_clauses (clients_query rq) = [(lit "client_status(name)", asc)]
       /\ lit "client_status(name)" <> lit "status_id")
  /\ (forall k, rq !! "sort_by" = Some k -> k <> [] -> k <> lit "status" ->
        exists asc, sort_clauses (clients_query rq) = [(k, asc)])
  /\ (rq !! "sort_by" = None ->
        sort_clauses (clients_query rq) = [(lit "id", true)])
  /\ (rq !! "sort_by" = Some [] ->
        sort_clauses (clients_query rq) = [(lit "id", true)]).
Proof.
  rewrite clients_query_sort. split; [| split; [| split]].
  - intros ->. eexists. split; [reflexivity | discriminate].
  - intros k -> Hk Hs. eexists. simpl.
    rewrite bool_decide_eq_false_2 by done. simpl.
    unfold strict_eq. rewrite bool_decide_eq_false_2 by congruence.
    reflexivity.
  - by intros ->.
  - by intros ->.
Qed.

Lemma C2_sort_column_witness :
  let by_name : gmap string jsstring :=
    {[ "sort_by" := lit "full_name"; "search" := lit "ann" ]} in
  let by_status : gmap string jsstring :=
    {[ "sort_by" := lit "status"; "sort_order" := lit "desc" ]} in
  let unsorted : gmap string jsstring := {[ "phone" := lit "555" ]} in
  (exists asc, sort_clauses (clients_query by_name) = [(lit "full_name", asc)])
  /\ (exists asc,
        sort_clauses (clients_query by_status)
        = [(lit "client_status(name)", asc)]
        /\ lit "client_status(name)" <> lit "status_id")
  /\ sort_clauses (clients_query unsorted) = [(lit "id", true)].
Proof.
  intros by_name by_status unsorted. split; [| split].
  - refine (proj1 (proj2 (C2_sort_column by_name)) (lit "full_name") _ _ _).
    + reflexivity.
    + discriminate.
    + discriminate.
  - refine (proj1 (C2_sort_column by_status) _). reflexivity.
  - refine (proj1 (proj2 (proj2 (C2_sort_column unsorted))) _). reflexivity.
Defined.

(** C6. When a sort key is supplied, the sort clause is descending exactly
    when [sort_order] is the string ["desc"]; with any other value, or with
    none, it is ascending. *)
Theorem C6_sort_direction (rq : gmap string jsstring) (k : jsstring) :
  rq !! "sort_by" = Some k -> k <> [] ->
  exists column ascending,
    sort_clauses (clients_query rq) = [(column, ascending)]
    /\ (ascending = false <-> rq !! "sort_order" = Some (lit "desc"))
    /\ (ascending = true <-> rq !! "sort_order" <> Some (lit "desc")).
Proof.
  intros Hk Hne. rewrite clients_query_sort, Hk. simpl.
  rewrite bool_decide_eq_false_2 by done. simpl.
  eexists _, _. split; [reflexivity |].
  unfold strict_eq. case_bool_decide; simpl; split; split; congruence.
Qed.

Lemma C6_sort_direction_witness :
  let rq : gmap string jsstring :=
    {[ "sort_by" := lit "phone_number"; "sort_order" := lit "desc" ]} in
  exists column ascending,
    sort_clauses (clients_query rq) = [(column, ascending)]
    /\ (ascending = false <-> rq !! "sort_order" = Some (lit "desc"))
    /\ (ascending = true <-> rq !! "sort_order" <> Some (lit "desc")).
Proof.
  intros rq. apply (C6_sort_direction rq (lit "phone_number")).
  - reflexivity.
  - discriminate.
Defined.

(** ** Listing query: filters that impose no constraint *)

Lemma same_query_same_listing (rq1 rq2 : gmap string jsstring) :
  clients_query rq1 = clients_query rq2 -> same_listing rq1 rq2.
Proof.
  intros Hq. split; [exact Hq |].
  intros E tr b p s. unfold app, requireAuth.
  destruct (user s) as [u|] eqn:Hu; [| by split].
  unfold get_clients. cbn. rewrite Hq.
  destruct (error (store E tr (clients_query rq2))); cbn; [by split |].
  match goal with
  | |- context [error ?r] => destruct (error r)
  end; cbn; by split.
Qed.

Lemma non_blank_blank (t : jsstring) : blank t -> non_blank (Some t) = false.
Proof.
  intros Ht. unfold non_blank. rewrite (trim_blank t Ht).
  rewrite bool_decide_eq_true_2 by done.
  apply andb_false_r.
Qed.

Lemma clients_query_blank_search (rq : gmap string jsstring) (t : jsstring) :
  blank t ->
  clients_query (<["search" := t]> rq) = clients_query (delete "search" rq).
Proof.
  intros Ht. unfold clients_query. lookups.
  rewrite (non_blank_blank t Ht). reflexivity.
Qed.

Lemma clients_query_status_all (rq : gmap string jsstring) :
  clients_query (<["status" := lit "all"]> rq)
  = clients_query (delete "status" rq).
Proof. unfold clients_query. lookups. reflexivity. Qed.

(** C4. A listing whose [search] parameter is empty or made of white space
    only gives the same listing as the request without [search], and a
    listing whose [status] parameter is ["all"] gives the same listing as
    the request without [status]: the same query, the same events and the
    same result for every store and every session. *)
Theorem C4_blank_search_status_all (rq : gmap string jsstring) :
  (forall t : jsstring,
     blank t -> same_listing (<["search" := t]> rq) (delete "search" rq))
  /\ same_listing (<["status" := lit "all"]> rq) (delete "status" rq).
Proof.
  split.
  - intros t Ht. apply same_query_same_listing.
    by apply clients_query_blank_search.
  - apply same_query_same_listing, clients_query_status_all.
Qed.

Lemma C4_blank_search_witness :
  let rq : gmap string jsstring := {[ "phone" := lit "555" ]} in
  same_listing (<["search" := lit "  "]> rq) (delete "search" rq).
Proof.
  intros rq. apply (proj1 (C4_blank_search_status_all rq) (lit "  ")).
  repeat constructor.
Defined.

(** The raw parameters handed back to the view do tell an empty [search]
    from an absent one. *)
Remark filters_of_empty_search (rq : gmap string jsstring) :
  filters_of (<["search" := []]> rq) <> filters_of (delete "search" rq).
Proof.
  unfold filters_of. simpl. lookups. discriminate.
Qed.

(** ** Mutations: the status reference *)

Lemma client_values_status_id (b : gmap string jsstring) :
  client_values b !! "status_id"
  = Some (js_or (of_param (b !! "status_id")) VNull).
Proof. unfold client_values. by simplify_map_eq. Qed.

Lemma post_clients_run (E : env) (tr : list event) (req : request)
    (s : session) :
  let q := insert_client_query (body req) in
  let r := store E tr q in
  run E tr (post_clients req s)
  = (tr ++ [EvQuery q r],
     inr (s, match error r with
             | Some e => send (Str (message e))
             | None => Redirect "/clients"
             end)).
Proof. unfold post_clients. cbn. by destruct (error _). Qed.

Lemma put_clients_run (E : env) (tr : list event) (req : request)
    (s : session) :
  let q := update_client_query (params req !! "id") (body req) in
  let r := store E tr q in
  run E tr (put_clients req s)
  = (tr ++ [EvQuery q r],
     inr (s, match error r with
             | Some e => send (Str (message e))
             | None => Redirect "/clients"
             end)).
Proof. unfold put_clients. cbn. by destruct (error _). Qed.

(** C3. The values a create and an update send to the store: the status
    reference is [null] when the form field is absent or the empty string,
    it is the given string when that is not empty, and it is never the
    empty string.  A create (an update) by a logged-in user sends exactly
    one query, the insert of these values (the update of these values at
    the record whose [id] is the one of the request). *)
Theorem C3_status_reference_null_or_given (b : gmap string jsstring) :
  ((b !! "status_id" = None \/ b !! "status_id" = Some []) ->
     client_values b !! "status_id" = Some VNull)
  /\ (forall sid : jsstring,
        b !! "status_id" = Some sid -> sid <> [] ->
        client_values b !! "status_id" = Some (VStr sid))
  /\ client_values b !! "status_id" <> Some (VStr [])
  /\ (forall (E : env) (q p : gmap string jsstring) (s : session),
        is_Some (user s) ->
        exists r,
          (run E [] (app PostClients (Request q b p) s)).1
          = [EvQuery (Builder "clients" (Insert [client_values b]) []) r])
  /\ (forall (E : env) (q p : gmap string jsstring) (s : session),
        is_Some (user s) ->
        exists r,
          (run E [] (app PutClients (Request q b p) s)).1
          = [EvQuery (Builder "clients" (Update (client_values b))
                        [Eq (lit "id") (of_param (p !! "id"))]) r]).
Proof.
  rewrite client_values_status_id. split; [| split; [| split; [| split]]].
  - by intros [-> | ->].
  - intros sid -> Hsid. unfold js_or. simpl.
    by rewrite bool_decide_eq_false_2.
  - destruct (b !! "status_id") as [sid|]; [| discriminate].
    unfold js_or. simpl. case_bool_decide; simpl; congruence.
  - intros E q p s Hs. unfold app.
    rewrite (requireAuth_authenticated _ _ _ Hs), post_clients_run.
    eexists. reflexivity.
  - intros E q p s Hs. unfold app.
    rewrite (requireAuth_authenticated _ _ _ Hs), put_clients_run.
    eexists. reflexivity.
Qed.

Lemma C3_status_reference_witness :
  let b : gmap string jsstring :=
    {[ "full_name" := lit "Jane Doe"; "phone_number" := lit "555-1000";
       "status_id" := [] ]} in
  client_values b !! "status_id" = Some VNull
  /\ client_values (<["status_id" := lit "2"]> b) !! "status_id"
     = Some (VStr (lit "2"))
  /\ exists r,
       (run (Env (fun _ _ => Result None None) (fun _ _ => Result None None)
                 (fun _ _ _ => None) (fun _ _ _ => None)) []
            (app PostClients (Request ∅ b ∅) (Session (Some ∅)))).1
       = [EvQuery (Builder "clients" (Insert [client_values b]) []) r].
Proof.
  intros b. split; [| split].
  - apply (proj1 (C3_status_reference_null_or_given b)).
    right. reflexivity.
  - apply (proj1 (proj2 (C3_status_reference_null_or_given
                           (<["status_id" := lit "2"]> b))) (lit "2")).
    + reflexivity.
    + discriminate.
  - apply (proj1 (proj2 (proj2 (proj2
             (C3_status_reference_null_or_given b))))).
    simpl. eexists. reflexivity.
Defined.

(** ** Listing: the two reads *)

Lemma get_clients_run (E : env) (tr : list event) (req : request)
    (s : session) :
  let q := clients_query (query req) in
  let r := store E tr q in
  let r' := store E (tr ++ [EvQuery q r]) statuses_query in
  run E tr (get_clients req s)
  = match error r with
    | Some e => (tr ++ [EvQuery q r], inr (s, send (Str (message e))))
    | None =>
        ((tr ++ [EvQuery q r]) ++ [EvQuery statuses_query r'],
         inr (s, match error r' with
                 | Some statusError => send (Str (message statusError))
                 | None =>
                     Render "clients/index"
                       [("clients", LRows (data r));
                        ("statuses", LRows (data r'));
                        ("user", LUser (user_or_null s));
                        ("filters", LFilters (filters_of (query req)))]
                 end))
    end.
Proof.
  unfold get_clients. cbn.
  destruct (error (store E tr _)); cbn; [reflexivity |].
  by destruct (error (store E _ statuses_query)).
Qed.

(** C7, as stated, fails: when the main query of a listing fails, the
    handler answers with that failure and returns; the status collection is
    not read. *)
Lemma C7_status_read_not_always :
  ~ (forall (E : env) (req : request) (s : session),
       is_Some (user s) ->
       status_read (run E [] (app GetClients req s)).1).
Proof.
  intros H.
  destruct (H store_down (Request ∅ ∅ ∅) (Session (Some ∅)))
    as [r Hr]; [by eexists |].
  unfold app in Hr.
  rewrite requireAuth_authenticated, get_clients_run in Hr by (by eexists).
  cbn in Hr. apply list_elem_of_singleton in Hr. discriminate Hr.
Qed.

(** C7, amended. For every listing by a logged-in user, whatever the
    filters: when the main query succeeds, a second query reads the status
    collection ordered by [id], ascending, and when that read fails the
    answer is its own message; when the main query fails, the answer is the
    main query's message and no second read is made. *)
Theorem C7_status_read_after_main_query (E : env) (req : request)
    (s : session) :
  is_Some (user s) ->
  let q := clients_query (query req) in
  let r := store E [] q in
  let r' := store E [EvQuery q r] statuses_query in
  statuses_query
  = Builder "client_status" (Select "*") [Order (lit "id") true]
  /\ (error r = None ->
        (run E [] (app GetClients req s)).1
        = [EvQuery q r; EvQuery statuses_query r']
        /\ forall statusError,
             error r' = Some statusError ->
             (run E [] (app GetClients req s)).2
             = inr (s, send (Str (message statusError))))
  /\ (forall e,
        error r = Some e ->
        run E [] (app GetClients req s)
        = ([EvQuery q r], inr (s, send (Str (message e))))).
Proof.
  intros Hs q r r'. unfold app.
  rewrite (requireAuth_authenticated _ _ _ Hs), get_clients_run.
  fold q. fold r. cbn [app]. change ([] ++ [EvQuery q r]) with [EvQuery q r].
  fold r'. split; [reflexivity | split].
  - intros ->. split; [reflexivity |]. by intros e' ->.
  - by intros e ->.
Qed.

Lemma C7_status_read_witness :
  let req := Request {[ "status" := lit "3" ]} ∅ ∅ in
  let s := Session (Some ∅) in
  (run second_read_fails [] (app GetClients req s)).2
  = inr (s, send (Str (lit "timeout")))
  /\ run store_down [] (app GetClients req s)
     = ([EvQuery (clients_query (query req))
           (Result None (Some (PgError (lit "fetch failed"))))],
        inr (s, send (Str (lit "fetch failed")))).
Proof.
  intros req s. split.
  - refine (proj2 (proj1 (proj2 (C7_status_read_after_main_query
                                   second_read_fails req s _)) _)
              (PgError (lit "timeout")) _).
    + simpl. eexists. reflexivity.
    + reflexivity.
    + reflexivity.
  - refine (proj2 (proj2 (C7_status_read_after_main_query
                            store_down req s _))
              (PgError (lit "fetch failed")) _).
    + simpl. eexists. reflexivity.
    + reflexivity.
Defined.

(** ** Registration *)

Lemma post_register_run (E : env) (tr : list event) (req : request)
    (s : session) :
  let username := body req !! "username" in
  let email := body req !! "email" in
  let password := of_param (body req !! "password") in
  let q := existing_user_query email username in
  let r := store E tr q in
  let tr1 := tr ++ [EvQuery q r] in
  let h := hash_reply E tr1 password 10 in
  let tr2 := tr1 ++ [EvHash password 10 h] in
  run E tr (post_register req s)
  = if has_rows (data r) then (tr1, inr (s, conflict))
    else
      match h with
      | None =>
          (tr2 ++ [EvLog BcryptError],
           inr (s, Send 500 (Text "Ошибка при регистрации.")))
      | Some password_hash =>
          let q' := insert_user_query username email password_hash in
          let r' := store E tr2 q' in
          match error r' with
          | Some e =>
              ((tr2 ++ [EvQuery q' r']) ++ [EvLog (StoreError e)],
               inr (s, Send 500 (Text "Ошибка при регистрации.")))
          | None => (tr2 ++ [EvQuery q' r'], inr (s, Redirect "/login"))
          end
      end.
Proof.
  unfold post_register. cbn.
  destruct (has_rows _); cbn; [reflexivity |].
  destruct (hash_reply E _ _ _); cbn; [| reflexivity].
  by destruct (error _).
Qed.

(** C8. A registration first asks the store one question, the users whose
    email is the given one or whose username is the given one.  When the
    answer holds a row, the registration is rejected with status 400 and
    its conflict message, and nothing else happens: no user row is
    inserted.  When the answer holds no row, the password is hashed by bcrypt
    with cost 10 and, the hash obtained, a row with the username, the email
    and that hash is inserted into [users]; when the insert succeeds the
    answer is the redirect to [/login]. *)
Theorem C8_register_conflict_or_insert (E : env) (req : request)
    (s : session) :
  let username := body req !! "username" in
  let email := body req !! "email" in
  let password := of_param (body req !! "password") in
  let q := existing_user_query email username in
  let r := store E [] q in
  q = Builder "users" (Select "*")
        [Or (lit "email.eq." ++ interpolate email
             ++ lit ",username.eq." ++ interpolate username)]
  /\ (has_rows (data r) = true ->
        run E [] (post_register req s) = ([EvQuery q r], inr (s, conflict))
        /\ filter is_user_insert (run E [] (post_register req s)).1 = [])
  /\ (has_rows (data r) = false ->
        forall password_hash,
          hash_reply E [EvQuery q r] password 10 = Some password_hash ->
          let q' :=
            Builder "users"
              (Insert [ {[ "username" := of_param username;
                           "email" := of_param email;
                           "password_hash" := VStr password_hash ]} ]) [] in
          let r' :=
            store E [EvQuery q r; EvHash password 10 (Some password_hash)]
              q' in
          exists rest,
            (run E [] (post_register req s)).1
            = [EvQuery q r; EvHash password 10 (Some password_hash);
               EvQuery q' r'] ++ rest
            /\ (error r' = None ->
                  rest = []
                  /\ (run E [] (post_register req s)).2
                     = inr (s, Redirect "/login"))).
Proof.
  intros username email password q r.
  rewrite post_register_run.
  fold username email password q. fold r.
  change ([] ++ [EvQuery q r]) with [EvQuery q r].
  split; [reflexivity | split].
  - intros ->. split; reflexivity.
  - intros Hd ph Hh q' r'. subst r'. rewrite Hd, Hh. cbv zeta.
    change (insert_user_query username email ph) with q'.
    change ([EvQuery q r] ++ [EvHash password 10 (Some ph)])
      with [EvQuery q r; EvHash password 10 (Some ph)].
    match goal with |- context [error ?x] => destruct (error x) as [e|] end;
      cbn [fst snd List.app].
    + exists [EvLog (StoreError e)]. split; [reflexivity | discriminate].
    + exists []. split; [reflexivity |]. intros _. split; reflexivity.
Qed.

Lemma C8_register_witness :
  let req :=
    Request ∅ {[ "username" := lit "bob"; "email" := lit "ann@example.org";
                 "password" := lit "pw" ]} ∅ in
  (run (store_of [ann]) [] (post_register req (Session None))).2
  = inr (Session None, conflict)
  /\ exists rest,
       (run (store_of []) [] (post_register req (Session None))).1
       = [EvQuery (existing_user_query (Some (lit "ann@example.org"))
                     (Some (lit "bob")))
            (Result (Some []) None);
          EvHash (VStr (lit "pw")) 10 (Some (lit "$2b$10$xyz"));
          EvQuery (insert_user_query (Some (lit "bob"))
                     (Some (lit "ann@example.org")) (lit "$2b$10$xyz"))
            (Result None None)] ++ rest
       /\ (@None pg_error = None ->
             rest = []
             /\ (run (store_of []) [] (post_register req (Session None))).2
                = inr (Session None, Redirect "/login")).
Proof.
  intros req. split.
  - refine (f_equal snd
              (proj1 (proj1 (proj2 (C8_register_conflict_or_insert
                                      (store_of [ann]) req (Session None)))
                        _))).
    reflexivity.
  - refine (proj2 (proj2 (C8_register_conflict_or_insert
                            (store_of []) req (Session None)))
              _ (lit "$2b$10$xyz") _).
    + reflexivity.
    + reflexivity.
Defined.

(** With a store that answers the existence check with the colliding rows
    of its [users] table: a registration whose email or username is taken
    is rejected and touches nothing; a registration that collides with no
    row goes on to hash the password. *)
Lemma register_against_table (E : env) (users : list object)
    (req : request) (s : session) :
  let username := body req !! "username" in
  let email := body req !! "email" in
  let password := of_param (body req !! "password") in
  let q := existing_user_query email username in
  store E [] q = Result (Some (filter (collides email username) users)) None ->
  ((exists u, u ∈ users /\ collides email username u = true) ->
     run E [] (post_register req s)
     = ([EvQuery q (store E [] q)], inr (s, conflict)))
  /\ ((forall u, u ∈ users -> collides email username u = false) ->
        exists rest resp,
          run E [] (post_register req s)
          = ([EvQuery q (store E [] q);
              EvHash password 10
                (hash_reply E [EvQuery q (store E [] q)] password 10)]
             ++ rest, inr (s, resp))).
Proof.
  intros username email password q Hq.
  rewrite post_register_run. cbv zeta.
  fold username email password q. rewrite Hq. cbn [data List.app].
  split.
  - intros (u & Hu & Hc).
    assert (Hin : u ∈ filter (collides email username) users).
    { apply list_elem_of_filter. split; [by rewrite Hc | done]. }
    destruct (filter (collides email username) users) as [|u' l].
    + by apply elem_of_nil in Hin.
    + reflexivity.
  - intros Hnone.
    assert (Hnil : filter (collides email username) users = []).
    { destruct (filter (collides email username) users) as [|u l] eqn:Hf;
        [reflexivity |].
      assert (Hin : u ∈ filter (collides email username) users)
        by (rewrite Hf; apply list_elem_of_here).
      apply list_elem_of_filter in Hin as [Hc Hu].
      rewrite (Hnone u Hu) in Hc. by destruct Hc. }
    rewrite Hnil. cbn [has_rows length].
    rewrite bool_decide_eq_false_2 by done.
    destruct (hash_reply E _ _ _);
      [match goal with |- context [error ?x] => destruct (error x) end |];
      eexists _, _; reflexivity.
Qed.

(** C10. The registration reads only [data] of the existence check: what
    follows the check is the same for two answers with the same [data],
    whatever their [error].  So when the check itself fails (an error and no
    data) the answer is not the conflict: bcrypt is asked to hash the
    password with cost 10 and, the hash obtained, the row with the
    username, the email and that hash is sent to the store for insertion
    into [users]; when that insert succeeds the answer is the redirect to
    [/login]. *)
Theorem C10_lookup_failure_ignored (E : env) (req : request) (s : session)
    (e : pg_error) :
  let username := body req !! "username" in
  let email := body req !! "email" in
  let password := of_param (body req !! "password") in
  let q := existing_user_query email username in
  let r := Result None (Some e) in
  let h := hash_reply E [EvQuery q r] password 10 in
  store E [] q = r ->
  q = Builder "users" (Select "*")
        [Or (lit "email.eq." ++ interpolate email
             ++ lit ",username.eq." ++ interpolate username)]
  /\ (exists k,
        post_register req s = Await q k
        /\ forall r1 r2, data r1 = data r2 -> k r1 = k r2)
  /\ (exists rest resp,
        run E [] (post_register req s)
        = ([EvQuery q r; EvHash password 10 h] ++ rest, inr (s, resp))
        /\ resp <> conflict)
  /\ (forall password_hash,
        h = Some password_hash ->
        let q' :=
          Builder "users"
            (Insert [ {[ "username" := of_param username;
                         "email" := of_param email;
                         "password_hash" := VStr password_hash ]} ]) [] in
        let r' :=
          store E [EvQuery q r; EvHash password 10 (Some password_hash)] q' in
        exists rest,
          (run E [] (post_register req s)).1
          = [EvQuery q r; EvHash password 10 (Some password_hash);
             EvQuery q' r'] ++ rest
          /\ (error r' = None ->
                rest = []
                /\ (run E [] (post_register req s)).2
                   = inr (s, Redirect "/login"))).
Proof.
  intros username email password q r h Hr.
  split; [reflexivity | split; [| split]].
  - eexists. split; [reflexivity |].
    intros r1 r2 H. cbn. by rewrite H.
  - rewrite post_register_run.
    fold username email password q. rewrite Hr. fold r.
    cbn [data has_rows List.app]. fold h.
    destruct h as [ph|];
      [match goal with |- context [error ?x] => destruct (error x) end |];
      eexists _, _; (split; [reflexivity | discriminate]).
  - intros ph Hh q' r'. subst r'. rewrite post_register_run. cbv zeta.
    fold username email password q. rewrite Hr. fold r.
    cbn [data has_rows List.app]. fold h. rewrite Hh.
    change (insert_user_query username email ph) with q'.
    match goal with |- context [error ?x] => destruct (error x) as [e'|] end;
      cbn [fst snd List.app].
    + exists [EvLog (StoreError e')]. split; [reflexivity | discriminate].
    + exists []. split; [reflexivity |]. intros _. split; reflexivity.
Qed.

Lemma C10_lookup_failure_witness :
  let req :=
    Request ∅ {[ "username" := lit "a,b"; "email" := lit "ann@example.org";
                 "password" := lit "pw" ]} ∅ in
  let q :=
    Builder "users" (Select "*")
      [Or (lit "email.eq.ann@example.org,username.eq.a,b")] in
  let q' :=
    Builder "users"
      (Insert [ {[ "username" := VStr (lit "a,b");
                   "email" := VStr (lit "ann@example.org");
                   "password_hash" := VStr (lit "$2b$10$xyz") ]} ]) [] in
  exists rest,
    (run reads_fail [] (post_register req (Session None))).1
    = [EvQuery q (Result None (Some (PgError (lit "failed to parse"))));
       EvHash (VStr (lit "pw")) 10 (Some (lit "$2b$10$xyz"));
       EvQuery q' (Result None None)] ++ rest
    /\ (@None pg_error = None ->
          rest = []
          /\ (run reads_fail [] (post_register req (Session None))).2
             = inr (Session None, Redirect "/login")).
Proof.
  intros req q q'.
  refine (proj2 (proj2 (proj2 (C10_lookup_failure_ignored reads_fail req
                                 (Session None)
                                 (PgError (lit "failed to parse")) _)))
            (lit "$2b$10$xyz") _).
  - reflexivity.
  - reflexivity.
Defined.

(** ** Login *)

Lemma post_login_run (E : env) (tr : list event) (req : request)
    (s : session) :
  let email := body req !! "email" in
  let password := of_param (body req !! "password") in
  let q := user_by_email_query email in
  let r := store E tr q in
  let tr1 := tr ++ [EvQuery q r] in
  run E tr (post_login req s)
  = match error r with
    | Some e =>
        (tr1 ++ [EvLog (StoreError e)],
         inr (s, Send 500 (Text "Ошибка при входе.")))
    | None =>
        match data r with
        | None | Some [] => (tr1, inr (s, not_found))
        | Some (u :: _) =>
            let c := compare_reply E tr1 password (get u "password_hash") in
            let tr2 := tr1 ++ [EvCompare password (get u "password_hash") c] in
            match c with
            | None =>
                (tr2 ++ [EvLog BcryptError],
                 inr (s, Send 500 (Text "Ошибка при входе.")))
            | Some false => (tr2, inr (s, unauthorized))
            | Some true =>
                (tr2, inr (Session (Some (user_projection u)), Redirect "/"))
            end
        end
    end.
Proof.
  unfold post_login. cbn.
  destruct (error _); cbn; [reflexivity |].
  destruct (data _) as [[|u rest]|]; cbn; try reflexivity.
  by destruct (compare_reply E _ _ _) as [[|]|].
Qed.

(** C5. A login reads the users whose email is exactly the given one.  When
    that read succeeds with no row, the answer is the not-found message
    (status 400); when it gives a user whose stored hash bcrypt does not
    match with the given password, the answer is the wrong-password message
    with status 401, a different answer.  In both cases the session is the
    one the request came with: no user is stored in it, and an anonymous
    session is still anonymous. *)
Theorem C5_login_failures (E : env) (req : request) (s : session) :
  let email := body req !! "email" in
  let password := of_param (body req !! "password") in
  let q := user_by_email_query email in
  let r := store E [] q in
  q = Builder "users" (Select "*") [Eq (lit "email") (of_param email); Limit 1]
  /\ (error r = None -> data r = None \/ data r = Some [] ->
        run E [] (post_login req s) = ([EvQuery q r], inr (s, not_found)))
  /\ (error r = None ->
        forall u rest,
          data r = Some (u :: rest) ->
          compare_reply E [EvQuery q r] password (get u "password_hash")
          = Some false ->
          run E [] (post_login req s)
          = ([EvQuery q r;
              EvCompare password (get u "password_hash") (Some false)],
             inr (s, unauthorized)))
  /\ not_found <> unauthorized
  /\ (forall tr s' resp,
        run E [] (post_login req s) = (tr, inr (s', resp)) ->
        resp = not_found \/ resp = unauthorized ->
        s' = s /\ (user s = None -> user s' = None)).
Proof.
  intros email password q r. rewrite post_login_run. cbv zeta.
  fold email password q. fold r.
  change ([] ++ [EvQuery q r]) with [EvQuery q r].
  split; [reflexivity | split; [| split; [| split]]].
  - intros -> [-> | ->]; reflexivity.
  - intros -> u rest -> ->. reflexivity.
  - discriminate.
  - intros tr s' resp.
    destruct (error r); [intros [= <- <- <-] [|]; discriminate |].
    destruct (data r) as [[|u rest]|];
      try (intros [= <- <- <-] _; by split).
    destruct (compare_reply E _ _ _) as [[|]|];
      intros [= <- <- <-] H; try by split.
    destruct H; discriminate.
Qed.

Lemma C5_login_failures_witness :
  let unknown :=
    Request ∅ {[ "email" := lit "bob@example.org";
                 "password" := lit "secret" ]} ∅ in
  let wrong :=
    Request ∅ {[ "email" := lit "ann@example.org";
                 "password" := lit "guess" ]} ∅ in
  (run (store_of []) [] (post_login unknown (Session None))).2
  = inr (Session None, not_found)
  /\ (run (store_of [ann]) [] (post_login wrong (Session None))).2
     = inr (Session None, unauthorized).
Proof.
  intros unknown wrong. split.
  - refine (f_equal snd
              (proj1 (proj2 (C5_login_failures (store_of []) unknown
                               (Session None))) _ _)).
    + reflexivity.
    + right. reflexivity.
  - refine (f_equal snd
              (proj1 (proj2 (proj2 (C5_login_failures (store_of [ann]) wrong
                                      (Session None)))) _ ann [] _ _)).
    + reflexivity.
    + reflexivity.
    + reflexivity.
Defined.

(** ** Sessions *)

Lemma user_projection_dom (u : object) :
  dom (user_projection u) = ({[ "id"; "username"; "email" ]} : gset string).
Proof.
  unfold user_projection. rewrite !dom_insert_L, dom_singleton_L.
  set_solver.
Qed.

Lemma user_projection_no_hash (u : object) :
  user_projection u !! "password_hash" = None.
Proof. unfold user_projection. by simplify_map_eq. Qed.

Lemma step_session (s s' : session) :
  step s s' ->
  s' = s \/ s' = Session None
  \/ exists u, s' = Session (Some (user_projection u)).
Proof.
  intros (E & tr & r & req & tr' & resp & H).
  destruct r; unfold app, requireAuth in H; try destruct (user s);
    cbn in H;
    repeat (match type of H with
            | context [match ?x with _ => _ end] => destruct x eqn:?
            end; cbn in H);
    injection H as <- <- <-; eauto.
Qed.

Lemma reachable_projected (s : session) : reachable s -> projected s.
Proof.
  induction 1 as [|s s' _ IH Hstep].
  - by left.
  - destruct (step_session s s' Hstep) as [-> | [-> | [u ->]]].
    + exact IH.
    + by left.
    + right. by exists u.
Qed.

(** C9. A login that succeeds leaves in the session the object made of
    [id], [username] and [email] of the user row, with no other property,
    in particular no [password_hash]; and no session reachable from a fresh
    one, through any requests to any routes, holds a [password_hash]. *)
Theorem C9_session_minimal_projection :
  (forall (E : env) (req : request) (s : session) (u : object)
          (rest : list object),
     let password := of_param (body req !! "password") in
     let q := user_by_email_query (body req !! "email") in
     let r := store E [] q in
     error r = None ->
     data r = Some (u :: rest) ->
     compare_reply E [EvQuery q r] password (get u "password_hash")
     = Some true ->
     (run E [] (post_login req s)).2
     = inr (Session (Some (user_projection u)), Redirect "/"))
  /\ (forall u : object,
        dom (user_projection u)
        = ({[ "id"; "username"; "email" ]} : gset string)
        /\ user_projection u !! "id" = Some (get u "id")
        /\ user_projection u !! "username" = Some (get u "username")
        /\ user_projection u !! "email" = Some (get u "email")
        /\ user_projection u !! "password_hash" = None)
  /\ (forall s : session, reachable s -> ~ holds_password_hash s).
Proof.
  split; [| split].
  - intros E req s u rest password q r He Hd Hc.
    rewrite post_login_run. cbv zeta. fold password q. fold r.
    rewrite He, Hd. change ([] ++ [EvQuery q r]) with [EvQuery q r].
    by rewrite Hc.
  - intros u. split; [apply user_projection_dom |].
    unfold user_projection. by simplify_map_eq.
  - intros s Hs (u & Hu & Hh).
    destruct (reachable_projected s Hs) as [Hn | [u' Hu']].
    + congruence.
    + rewrite Hu' in Hu. injection Hu as <-.
      rewrite user_projection_no_hash in Hh. by destruct Hh.
Qed.

Lemma C9_session_witness :
  let req :=
    Request ∅ {[ "email" := lit "ann@example.org";
                 "password" := lit "secret" ]} ∅ in
  (run (store_of [ann]) [] (post_login req (Session None))).2
  = inr (Session (Some (user_projection ann)), Redirect "/")
  /\ ~ holds_password_hash (Session (Some (user_projection ann))).
Proof.
  intros req. split.
  - refine (proj1 C9_session_minimal_projection (store_of [ann]) req
              (Session None) ann [] _ _ _); reflexivity.
  - refine (proj2 (proj2 C9_session_minimal_projection) _ _).
    apply (reachable_step (Session None)); [apply reachable_fresh |].
    exists (store_of [ann]), [], PostLogin, req. eexists _, _. reflexivity.
Defined.

(** * Further properties of the handlers *)

(** ** Failures of the store on the client routes *)

(** X2. On the client routes a failure of the store ends the request: the
    failed query is the last event, every query before it succeeded, and
    the answer is the raw message of the failure; without a failure the
    answer is a view or the redirect to the listing.  The session is never
    changed. *)
Theorem client_failure_is_terminal (E : env) (r : route) (req : request)
    (s s' : session) (tr : list event) (resp : response) :
  r ∈ client_routes ->
  is_Some (user s) ->
  run E [] (app r req s) = (tr, inr (s', resp)) ->
  s' = s
  /\ ((exists tr0 ev e,
         tr = tr0 ++ [ev]
         /\ Forall (fun x => store_error x = None) tr0
         /\ store_error ev = Some e
         /\ resp = send (Str (message e)))
      \/ (Forall (fun x => store_error x = None) tr
          /\ tr <> []
          /\ (resp = Redirect "/clients"
              \/ exists view locals, resp = Render view locals))).
Proof.
  intros Hr [u Hu] H. unfold client_routes in Hr.
  destruct r; try not_client_route Hr;
    unfold app, requireAuth in H; rewrite Hu in H; run_cases H;
    (split; [reflexivity |]);
    first
      [ left; exists []; eexists _, _;
        split; [reflexivity |];
        split; [constructor | split; [eassumption | reflexivity]]
      | left; eexists [_]; eexists _, _;
        split; [reflexivity |];
        split; [repeat constructor; assumption |
                split; [eassumption | reflexivity]]
      | right;
        split; [repeat constructor; assumption |
                split; [discriminate | eauto]] ].
Qed.

Lemma client_failure_is_terminal_witness :
  let req := Request ∅ ∅ {[ "id" := lit "7" ]} in
  let s := Session (Some ∅) in
  s = s
  /\ ((exists tr0 ev e,
         [EvQuery (delete_client_query (Some (lit "7")))
            (Result None (Some (PgError (lit "fetch failed"))))]
         = tr0 ++ [ev]
         /\ Forall (fun x => store_error x = None) tr0
         /\ store_error ev = Some e
         /\ send (Str (lit "fetch failed")) = send (Str (message e)))
      \/ (Forall (fun x => store_error x = None)
            [EvQuery (delete_client_query (Some (lit "7")))
               (Result None (Some (PgError (lit "fetch failed"))))]
          /\ [EvQuery (delete_client_query (Some (lit "7")))
                (Result None (Some (PgError (lit "fetch failed"))))] <> []
          /\ (send (Str (lit "fetch failed")) = Redirect "/clients"
              \/ exists view locals,
                   send (Str (lit "fetch failed")) = Render view locals))).
Proof.
  intros req s.
  apply (client_failure_is_terminal store_down DeleteClients req s).
  - unfold client_routes. do 5 apply list_elem_of_further.
    apply list_elem_of_here.
  - simpl. eexists. reflexivity.
  - reflexivity.
Defined.

(** ** What changes the session *)

(** X3. Only a login and a logout change the session.  Every other route
    hands back the session it received, a registration included; a login
    changes it only together with the redirect to [/], to the projection of
    a user row; a logout always empties it. *)
Theorem session_changes_only_at_login_logout (E : env) (tr tr' : list event)
    (r : route) (req : request) (s s' : session) (resp : response) :
  run E tr (app r req s) = (tr', inr (s', resp)) ->
  (r <> PostLogin -> r <> GetLogout -> s' = s)
  /\ (r = PostLogin ->
        (s' = s /\ resp <> Redirect "/")
        \/ (resp = Redirect "/"
            /\ exists u, s' = Session (Some (user_projection u))))
  /\ (r = GetLogout -> s' = Session None).
Proof.
  intros H.
  destruct r; unfold app, requireAuth in H; try destruct (user s);
    run_cases H;
    (split; [| split]); try congruence; try reflexivity; intros _;
    first [ left; split; [reflexivity | discriminate]
          | right; split; [reflexivity | eauto] ].
Qed.

Lemma session_changes_witness :
  let req :=
    Request ∅ {[ "username" := lit "bob"; "email" := lit "bob@example.org";
                 "password" := lit "pw" ]} ∅ in
  Session (Some ann) = Session (Some ann).
Proof.
  intros req.
  refine (proj1 (session_changes_only_at_login_logout (store_of []) []
                   _ PostRegister req (Session (Some ann)) _ _ _) _ _).
  - reflexivity.
  - discriminate.
  - discriminate.
Defined.

(** X4. A logout answers from any session, without asking the store: the
    session is emptied and the answer is the redirect to [/].  With the
    session it leaves, every client route answers with the redirect to
    [/login] and no event. *)
Theorem logout_then_client_routes_redirect (E : env) (tr tr' : list event)
    (req : request) (s s' : session) (resp : response) :
  run E tr (app GetLogout req s) = (tr', inr (s', resp)) ->
  tr' = tr
  /\ resp = Redirect "/"
  /\ forall (E' : env) (t : list event) (r : route) (req' : request),
       r ∈ client_routes ->
       run E' t (app r req' s') = (t, inr (s', Redirect "/login")).
Proof.
  intros H. cbn in H. injection H as <- <- <-.
  split; [reflexivity | split; [reflexivity |]].
  intros E' t r req' Hr. unfold client_routes in Hr.
  destruct r; try not_client_route Hr; reflexivity.
Qed.

Lemma logout_then_client_routes_witness :
  run store_down [] (app PostClients (Request ∅ ∅ ∅) (Session None))
  = ([], inr (Session None, Redirect "/login")).
Proof.
  refine (proj2 (proj2 (logout_then_client_routes_redirect (store_of [ann])
                          [] [] (Request ∅ ∅ ∅) (Session (Some ann))
                          (Session None) (Redirect "/") _))
            store_down [] PostClients (Request ∅ ∅ ∅) _).
  - reflexivity.
  - unfold client_routes. do 2 apply list_elem_of_further.
    apply list_elem_of_here.
Defined.

(** X5. A login answered with the redirect to [/] has stored the
    projection of the first row the store returned for the email, after
    bcrypt matched the password against that row's hash; with the session
    it leaves, every client route runs its own function. *)
Theorem login_success_opens_client_routes (E : env) (tr : list event)
    (req : request) (s s' : session) :
  run E [] (app PostLogin req s) = (tr, inr (s', Redirect "/")) ->
  let password := of_param (body req !! "password") in
  let q := user_by_email_query (body req !! "email") in
  exists u rest,
    data (store E [] q) = Some (u :: rest)
    /\ error (store E [] q) = None
    /\ tr = [EvQuery q (store E [] q);
             EvCompare password (get u "password_hash") (Some true)]
    /\ s' = Session (Some (user_projection u))
    /\ forall (r : route) (req' : request),
         r ∈ client_routes -> app r req' s' = route_handler r req' s'.
Proof.
  intros H password q. unfold app in H.
  rewrite post_login_run in H. cbv zeta in H.
  fold password q in H.
  destruct (error (store E [] q)) eqn:He; [discriminate H |].
  destruct (data (store E [] q)) as [[|u rest]|] eqn:Hd;
    try discriminate H.
  destruct (compare_reply E _ _ _) as [[|]|] eqn:Hc; try discriminate H.
  injection H as <- <-.
  exists u, rest. repeat (split; [reflexivity |]).
  intros r req' Hr. unfold client_routes in Hr.
  destruct r; try not_client_route Hr; reflexivity.
Qed.

Lemma login_success_witness :
  let req :=
    Request ∅ {[ "email" := lit "ann@example.org";
                 "password" := lit "secret" ]} ∅ in
  exists u rest,
    data (store (store_of [ann]) [] (user_by_email_query (body req !! "email")))
    = Some (u :: rest)
    /\ error (store (store_of [ann]) []
                (user_by_email_query (body req !! "email"))) = None
    /\ [EvQuery (user_by_email_query (Some (lit "ann@example.org")))
          (Result (Some [ann]) None);
        EvCompare (VStr (lit "secret")) (VStr (lit "$2b$10$abc")) (Some true)]
       = [EvQuery (user_by_email_query (body req !! "email"))
            (store (store_of [ann]) []
               (user_by_email_query (body req !! "email")));
          EvCompare (of_param (body req !! "password"))
            (get u "password_hash") (Some true)]
    /\ Session (Some (user_projection ann))
       = Session (Some (user_projection u))
    /\ forall (r : route) (req' : request),
         r ∈ client_routes ->
         app r req' (Session (Some (user_projection ann)))
         = route_handler r req' (Session (Some (user_projection ann))).
Proof.
  intros req.
  apply (login_success_opens_client_routes (store_of [ann]) _ req
           (Session None)).
  reflexivity.
Defined.

(** ** Login and registration: failures and what reaches the store *)

(** X6. A login asks the store exactly one thing, the users with the given
    email: the password is never part of a query.  bcrypt is asked only
    when a row came back.  When the lookup fails, or when bcrypt rejects,
    the failure is logged and the answer is the generic status 500, which
    is neither the not-found nor the wrong-password answer and does not
    carry the message of the failure; the session is unchanged. *)
Theorem login_store_failure (E : env) (req : request) (s : session) :
  let password := of_param (body req !! "password") in
  let q := user_by_email_query (body req !! "email") in
  let r := store E [] q in
  queries (run E [] (post_login req s)).1 = [q]
  /\ (forall e,
        error r = Some e ->
        run E [] (post_login req s)
        = ([EvQuery q r; EvLog (StoreError e)], inr (s, login_failed)))
  /\ (forall u rest,
        error r = None -> data r = Some (u :: rest) ->
        compare_reply E [EvQuery q r] password (get u "password_hash")
        = None ->
        run E [] (post_login req s)
        = ([EvQuery q r; EvCompare password (get u "password_hash") None;
            EvLog BcryptError],
           inr (s, login_failed)))
  /\ ((forall d h c,
         EvCompare d h c ∈ (run E [] (post_login req s)).1 ->
         error r = None
         /\ exists u rest,
              data r = Some (u :: rest)
              /\ d = password /\ h = get u "password_hash"))
  /\ login_failed <> not_found
  /\ login_failed <> unauthorized.
Proof.
  intros password q r. rewrite post_login_run. cbv zeta.
  fold password q. fold r.
  change ([] ++ [EvQuery q r]) with [EvQuery q r].
  split; [| split; [| split; [| split; [| split]]]].
  - destruct (error r); [reflexivity |].
    destruct (data r) as [[|u rest]|]; try reflexivity.
    by destruct (compare_reply E _ _ _) as [[|]|].
  - by intros e ->.
  - by intros u rest -> -> ->.
  - intros d h c.
    destruct (error r); cbn.
    { intros Hin. repeat (apply elem_of_cons in Hin as [Hin|Hin];
                          [discriminate |]).
      by apply elem_of_nil in Hin. }
    destruct (data r) as [[|u rest]|]; cbn;
      try (intros Hin; repeat (apply elem_of_cons in Hin as [Hin|Hin];
                               [discriminate |]);
           by apply elem_of_nil in Hin).
    intros Hin. split; [reflexivity |]. exists u, rest.
    split; [reflexivity |].
    destruct (compare_reply E _ _ _) as [[|]|]; cbn in Hin;
      apply elem_of_cons in Hin as [Hin|Hin]; try discriminate;
      apply elem_of_cons in Hin as [Hin|Hin];
      try (injection Hin as -> -> _; by split);
      try (apply elem_of_cons in Hin as [Hin|Hin]; try discriminate);
      by apply elem_of_nil in Hin.
  - discriminate.
  - discriminate.
Qed.

Lemma login_store_failure_witness :
  let req :=
    Request ∅ {[ "email" := lit "ann@example.org";
                 "password" := lit "secret" ]} ∅ in
  run store_down [] (post_login req (Session None))
  = ([EvQuery (user_by_email_query (Some (lit "ann@example.org")))
        (Result None (Some (PgError (lit "fetch failed"))));
      EvLog (StoreError (PgError (lit "fetch failed")))],
     inr (Session None, login_failed)).
Proof.
  intros req.
  refine (proj1 (proj2 (login_store_failure store_down req (Session None)))
            (PgError (lit "fetch failed")) _).
  reflexivity.
Defined.

(** X7. A registration has three answers and never changes the session:
    the conflict; the redirect to [/login], only when the last event is the
    insert of the user row and it succeeded; the generic status 500, only
    after the failure was logged (a rejected bcrypt promise, a failed
    insert), without the message of the failure. *)
Theorem register_outcomes (E : env) (req : request) (s s' : session)
    (tr : list event) (resp : response) :
  run E [] (post_register req s) = (tr, inr (s', resp)) ->
  s' = s
  /\ (resp = conflict \/ resp = Redirect "/login" \/ resp = register_failed)
  /\ (resp = Redirect "/login" ->
        exists tr0 q r,
          tr = tr0 ++ [EvQuery q r]
          /\ table q = "users" /\ is_write (op q) = true
          /\ error r = None)
  /\ (resp = register_failed ->
        exists tr0 x, tr = tr0 ++ [EvLog x])
  /\ (resp = conflict -> queries tr = [existing_user_query
                                         (body req !! "email")
                                         (body req !! "username")]).
Proof.
  rewrite post_register_run. cbv zeta.
  destruct (has_rows _).
  { intros [= <- <- <-]. split; [reflexivity |].
    split; [by left |]. split; [discriminate |].
    split; [discriminate | reflexivity]. }
  destruct (hash_reply E _ _ _) as [h|].
  - match goal with |- context [error ?x] => destruct (error x) eqn:He end;
      intros [= <- <- <-]; (split; [reflexivity |]).
    + split; [by right; right |]. split; [discriminate |].
      split; [| discriminate]. intros _. eexists [_; _; _], _. reflexivity.
    + split; [by right; left |]. split; [| split; discriminate].
      intros _. eexists [_; _], _, _. split; [reflexivity |].
      split; [reflexivity | split; [reflexivity | exact He]].
  - intros [= <- <- <-]. split; [reflexivity |].
    split; [by right; right |]. split; [discriminate |].
    split; [| discriminate]. intros _. eexists [_; _], _. reflexivity.
Qed.

Lemma register_outcomes_witness :
  let req :=
    Request ∅ {[ "username" := lit "bob"; "email" := lit "bob@example.org";
                 "password" := lit "pw" ]} ∅ in
  Session None = Session None
  /\ (register_failed = conflict \/ register_failed = Redirect "/login"
      \/ register_failed = register_failed).
Proof.
  intros req.
  destruct (register_outcomes store_down req (Session None) (Session None)
              _ register_failed eq_refl) as (H1 & H2 & _).
  split; [exact H1 | exact H2].
Defined.

(** X8. A registration never inserts a password it did not hash: every
    insert of a run is into [users], of one row with exactly the
    properties [username], [email] and [password_hash], and the latter is a
    hash that bcrypt returned in that run for the given password with cost
    10. *)
Theorem register_inserts_only_hashes (E : env) (req : request) (s : session)
    (q : builder) (r : result (list object)) (rows : list object) :
  EvQuery q r ∈ (run E [] (post_register req s)).1 ->
  op q = Insert rows ->
  exists h,
    EvHash (of_param (body req !! "password")) 10 (Some h)
      ∈ (run E [] (post_register req s)).1
    /\ table q = "users"
    /\ rows = [ {[ "username" := of_param (body req !! "username");
                   "email" := of_param (body req !! "email");
                   "password_hash" := VStr h ]} ]
    /\ forall row, row ∈ rows ->
         dom row = ({[ "username"; "email"; "password_hash" ]} : gset string).
Proof.
  rewrite post_register_run. cbv zeta. cbn [List.app].
  destruct (has_rows _); cbn [fst].
  { intros Hin Hop. apply list_elem_of_singleton in Hin.
    injection Hin as -> _. discriminate Hop. }
  destruct (hash_reply E _ _ _) as [h|]; cbn [fst].
  - assert (Hdom : forall row : object,
              row ∈ [ ({[ "username" := of_param (body req !! "username");
                          "email" := of_param (body req !! "email");
                          "password_hash" := VStr h ]} : object) ] ->
              dom row
              = ({[ "username"; "email"; "password_hash" ]} : gset string)).
    { intros row Hrow. apply list_elem_of_singleton in Hrow. subst row.
      rewrite !dom_insert_L, dom_singleton_L. set_solver. }
    match goal with |- context [error ?x] => destruct (error x) end;
      cbn [fst]; intros Hin Hop;
      apply elem_of_cons in Hin as [Hin|Hin];
      try (injection Hin as -> _; discriminate Hop);
      apply elem_of_cons in Hin as [Hin|Hin]; try discriminate Hin;
      apply elem_of_cons in Hin as [Hin|Hin];
      try (injection Hin as -> _; injection Hop as <-;
           exists h; split;
           [apply list_elem_of_further, list_elem_of_here |
            split; [reflexivity | split; [reflexivity | exact Hdom]]]);
      try (apply elem_of_cons in Hin as [Hin|Hin]; try discriminate Hin);
      by apply elem_of_nil in Hin.
  - intros Hin Hop.
    apply elem_of_cons in Hin as [Hin|Hin];
      [injection Hin as -> _; discriminate Hop |].
    repeat (apply elem_of_cons in Hin as [Hin|Hin]; [discriminate Hin |]).
    by apply elem_of_nil in Hin.
Qed.

Lemma register_inserts_only_hashes_witness :
  let req :=
    Request ∅ {[ "username" := lit "bob"; "email" := lit "bob@example.org";
                 "password" := lit "pw" ]} ∅ in
  exists h,
    [ ({[ "username" := VStr (lit "bob");
          "email" := VStr (lit "bob@example.org");
          "password_hash" := VStr (lit "$2b$10$xyz") ]} : object) ]
    = [ {[ "username" := of_param (body req !! "username");
           "email" := of_param (body req !! "email");
           "password_hash" := VStr h ]} ].
Proof.
  intros req.
  destruct (register_inserts_only_hashes (store_of []) req (Session None)
              (insert_user_query (Some (lit "bob"))
                 (Some (lit "bob@example.org")) (lit "$2b$10$xyz"))
              (Result None None)
              [ {[ "username" := VStr (lit "bob");
                   "email" := VStr (lit "bob@example.org");
                   "password_hash" := VStr (lit "$2b$10$xyz") ]} ])
    as (h & _ & _ & Hrows & _).
  - simpl. do 2 apply list_elem_of_further. apply list_elem_of_here.
  - reflexivity.
  - exists h. exact Hrows.
Defined.

(** X9. The existence check of a registration is one string in which the
    email and the username are pasted unescaped: moving the text
    [,username.eq.] from one field to the other gives the same check, so
    different registrations can ask the store the same question; and an
    absent field asks for the literal text [undefined]. *)
Theorem existing_user_query_not_injective :
  (forall a b c : jsstring,
     existing_user_query (Some (a ++ lit ",username.eq." ++ b)) (Some c)
     = existing_user_query (Some a) (Some (b ++ lit ",username.eq." ++ c)))
  /\ (exists e1 u1 e2 u2 : jsstring,
        (e1, u1) <> (e2, u2)
        /\ existing_user_query (Some e1) (Some u1)
           = existing_user_query (Some e2) (Some u2))
  /\ existing_user_query None None
     = existing_user_query (Some (lit "undefined")) (Some (lit "undefined")).
Proof.
  assert (H : forall a b c : jsstring,
            existing_user_query (Some (a ++ lit ",username.eq." ++ b))
              (Some c)
            = existing_user_query (Some a)
                (Some (b ++ lit ",username.eq." ++ c))).
  { intros a b c. unfold existing_user_query, interpolate.
    do 2 f_equal. by rewrite <- !(assoc_L (++)). }
  split; [exact H | split; [| reflexivity]].
  exists (lit "a" ++ lit ",username.eq." ++ lit "b"), (lit "c"),
         (lit "a"), (lit "b" ++ lit ",username.eq." ++ lit "c").
  split; [discriminate | apply H].
Qed.

(** ** Trimming *)

Lemma trim_start_idemp (s : jsstring) : trim_start (trim_start s) = trim_start s.
Proof.
  induction s as [|c s IH]; [reflexivity |]. simpl.
  destruct (is_white_space c) eqn:Hc; [exact IH |]. simpl. by rewrite Hc.
Qed.

Lemma blank_reverse (s : jsstring) : blank (reverse s) <-> blank s.
Proof. unfold blank. apply Forall_reverse. Qed.

Lemma trim_eq_nil (s : jsstring) : trim s = [] <-> blank s.
Proof.
  split; [| apply trim_blank].
  unfold trim, trim_end. intros H.
  apply (f_equal reverse) in H. rewrite reverse_involutive in H.
  change (reverse []) with (@nil N) in H.
  apply (proj1 (trim_start_blank _)), (proj1 (blank_reverse _)) in H.
  apply (proj2 (trim_start_blank _)) in H.
  rewrite trim_start_idemp in H. by apply trim_start_blank.
Qed.

(** What [trim_start] drops is white space. *)
Lemma trim_start_suffix (s : jsstring) :
  exists pre, s = pre ++ trim_start s /\ blank pre.
Proof.
  induction s as [|c s (pre & Hs & Hpre)].
  - exists []. split; [reflexivity | constructor].
  - simpl. destruct (is_white_space c) eqn:Hc.
    + exists (c :: pre). split; [simpl; by f_equal | by constructor].
    + exists []. split; [reflexivity | constructor].
Qed.

Lemma trim_start_clean (s : jsstring) : starts_clean (trim_start s).
Proof.
  induction s as [|c s IH]; [exact I |]. simpl.
  by destruct (is_white_space c) eqn:Hc.
Qed.

Lemma trim_start_of_clean (s : jsstring) :
  starts_clean s -> trim_start s = s.
Proof. destruct s as [|c s]; [done |]. simpl. by intros ->. Qed.

Lemma trim_end_prefix (s : jsstring) :
  exists suf, s = trim_end s ++ suf /\ blank suf.
Proof.
  unfold trim_end.
  destruct (trim_start_suffix (reverse s)) as (pre & Hs & Hpre).
  exists (reverse pre). split; [| by apply blank_reverse].
  rewrite <- reverse_app, <- Hs. by rewrite reverse_involutive.
Qed.

Lemma trim_end_clean (s : jsstring) :
  starts_clean s -> starts_clean (trim_end s).
Proof.
  intros Hs. destruct (trim_end_prefix s) as (suf & Heq & _).
  destruct (trim_end s) as [|c t]; [exact I |].
  rewrite Heq in Hs. exact Hs.
Qed.

Lemma trim_end_idemp (s : jsstring) : trim_end (trim_end s) = trim_end s.
Proof.
  unfold trim_end. by rewrite reverse_involutive, trim_start_idemp.
Qed.

Lemma trim_idemp (s : jsstring) : trim (trim s) = trim s.
Proof.
  unfold trim.
  rewrite (trim_start_of_clean (trim_end (trim_start s)))
    by apply trim_end_clean, trim_start_clean.
  apply trim_end_idemp.
Qed.

Lemma non_blank_true (t : jsstring) :
  non_blank (Some t) = true <-> ~ blank t.
Proof.
  unfold non_blank. simpl. rewrite <- trim_eq_nil.
  rewrite andb_true_iff, !negb_true_iff, !bool_decide_eq_false.
  split; [by intros [_ H] |].
  intros H. split; [| exact H]. by intros ->.
Qed.

Lemma non_blank_trim (t : jsstring) :
  non_blank (Some (trim t)) = non_blank (Some t).
Proof.
  apply eq_true_iff_eq. rewrite !non_blank_true, <- !trim_eq_nil.
  by rewrite trim_idemp.
Qed.

Lemma pattern_of_trim (t : jsstring) :
  pattern_of (Some (trim t)) = pattern_of (Some t).
Proof. unfold pattern_of. simpl. by rewrite trim_idemp. Qed.

(** ** Listing query: the filters *)

(** The modifiers of the listing query: the filters in the order name,
    status, phone, then the sort clause. *)
Lemma clients_query_mods (rq : gmap string jsstring) :
  mods (clients_query rq)
  = (if non_blank (rq !! "search")
     then [Ilike (lit "full_name") (pattern_of (rq !! "search"))] else [])
    ++ (if truthy (of_param (rq !! "status"))
           && negb (strict_eq (rq !! "status") "all")
        then [Eq (lit "status_id") (of_param (rq !! "status"))] else [])
    ++ (if non_blank (rq !! "phone")
        then [Ilike (lit "phone_number") (pattern_of (rq !! "phone"))]
        else [])
    ++ [Order
          (if truthy (of_param (rq !! "sort_by"))
           then if strict_eq (rq !! "sort_by") "status"
                then lit "client_status(name)"
                else interpolate (rq !! "sort_by")
           else lit "id")
          (if truthy (of_param (rq !! "sort_by"))
           then negb (strict_eq (rq !! "sort_order") "desc")
           else true)].
Proof.
  unfold clients_query.
  destruct (non_blank (rq !! "search")),
    (truthy (of_param (rq !! "status"))
     && negb (strict_eq (rq !! "status") "all")),
    (non_blank (rq !! "phone")),
    (truthy (of_param (rq !! "sort_by")));
    try destruct (strict_eq (rq !! "sort_by") "status");
    try destruct (strict_eq (rq !! "sort_order") "desc");
    reflexivity.
Qed.

Lemma status_filter_active (p : option jsstring) :
  truthy (of_param p) && negb (strict_eq p "all") = true
  <-> exists t, p = Some t /\ t <> [] /\ t <> lit "all".
Proof.
  unfold strict_eq. destruct p as [t|]; simpl.
  - rewrite andb_true_iff, !negb_true_iff, !bool_decide_eq_false.
    split.
    + intros [H1 H2]. exists t. repeat split; congruence.
    + intros (t' & [= <-] & H1 & H2). split; congruence.
  - split; [discriminate |]. by intros (t & ? & _).
Qed.

Lemma non_blank_active (p : option jsstring) :
  non_blank p = true <-> exists t, p = Some t /\ ~ blank t.
Proof.
  destruct p as [t|].
  - rewrite non_blank_true. split; [eauto |]. by intros (t' & [= <-] & H).
  - split; [discriminate |]. by intros (t & ? & _).
Qed.

Lemma pattern_active (o : option jsstring) (p : jsstring) :
  (exists t, o = Some t /\ ~ blank t /\ p = lit "%" ++ trim t ++ lit "%")
  <-> non_blank o = true /\ p = pattern_of o.
Proof.
  rewrite non_blank_active. split.
  - intros (t & -> & Hb & ->). split; [eauto | reflexivity].
  - intros [(t & -> & Hb) ->]. exists t. by repeat split.
Qed.

Lemma status_active (o : option jsstring) (v : jsval) :
  (exists t, o = Some t /\ t <> [] /\ t <> lit "all" /\ v = VStr t)
  <-> truthy (of_param o) && negb (strict_eq o "all") = true
      /\ v = of_param o.
Proof.
  rewrite status_filter_active. split.
  - intros (t & -> & H1 & H2 & ->). split; [eauto | reflexivity].
  - intros [(t & -> & H1 & H2) ->]. exists t. by repeat split.
Qed.

(** X10. The filters of a listing are independent and each is decided by
    its own parameter: the name filter is present exactly when [search] is
    not blank, with the trimmed text between two [%]; the status filter
    exactly when [status] is a non-empty string other than ["all"], with
    the string as given (not trimmed); the phone filter exactly when
    [phone] is not blank.  The query holds at most these three filters,
    followed by exactly one sort clause, and nothing else. *)
Theorem listing_filters (rq : gmap string jsstring) :
  (forall c p,
     Ilike c p ∈ mods (clients_query rq) <->
     (c = lit "full_name"
      /\ exists t, rq !! "search" = Some t /\ ~ blank t
                   /\ p = lit "%" ++ trim t ++ lit "%")
     \/ (c = lit "phone_number"
         /\ exists t, rq !! "phone" = Some t /\ ~ blank t
                      /\ p = lit "%" ++ trim t ++ lit "%"))
  /\ (forall c v,
        Eq c v ∈ mods (clients_query rq) <->
        c = lit "status_id"
        /\ exists t, rq !! "status" = Some t /\ t <> [] /\ t <> lit "all"
                     /\ v = VStr t)
  /\ (exists fs c a,
        mods (clients_query rq) = fs ++ [Order c a]
        /\ (length fs <= 3)%nat
        /\ forall m, m ∈ fs -> (exists c p, m = Ilike c p)
                               \/ (exists c v, m = Eq c v)).
Proof.
  rewrite clients_query_mods.
  split; [| split].
  - intros c p.
    rewrite !elem_of_app, list_elem_of_singleton, !pattern_active.
    destruct (non_blank (rq !! "search")),
      (truthy (of_param (rq !! "status"))
       && negb (strict_eq (rq !! "status") "all")),
      (non_blank (rq !! "phone"));
      rewrite ?list_elem_of_singleton, ?elem_of_nil;
      intuition (simplify_eq; auto).
  - intros c v.
    rewrite !elem_of_app, list_elem_of_singleton, status_active.
    destruct (non_blank (rq !! "search")),
      (truthy (of_param (rq !! "status"))
       && negb (strict_eq (rq !! "status") "all")),
      (non_blank (rq !! "phone"));
      rewrite ?list_elem_of_singleton, ?elem_of_nil;
      intuition (simplify_eq; auto).
  - eexists _, _, _. rewrite !(assoc_L (++)). split; [reflexivity |].
    destruct (non_blank (rq !! "search")),
      (truthy (of_param (rq !! "status"))
       && negb (strict_eq (rq !! "status") "all")),
      (non_blank (rq !! "phone")); simpl;
      (split; [lia |]);
      intros m Hm;
      repeat (apply elem_of_cons in Hm as [-> | Hm]; [eauto |]);
      by apply elem_of_nil in Hm.
Qed.

Lemma listing_filters_witness :
  Ilike (lit "full_name") (lit "%ann%")
    ∈ mods (clients_query {[ "search" := lit " ann "; "status" := lit "all" ]}).
Proof.
  apply (proj1 (listing_filters _)). left. split; [reflexivity |].
  exists (lit " ann "). split; [reflexivity |]. split; [| reflexivity].
  intros H. apply Forall_cons in H as [_ H].
  apply Forall_cons in H as [H _]. discriminate H.
Defined.

(** X11. White space around the [search] or the [phone] text does not
    change the listing: the request with the trimmed text gives the same
    query, the same events and the same result. *)
Theorem listing_ignores_outer_white_space (rq : gmap string jsstring)
    (t : jsstring) :
  same_listing (<["search" := trim t]> rq) (<["search" := t]> rq)
  /\ same_listing (<["phone" := trim t]> rq) (<["phone" := t]> rq).
Proof.
  split; apply same_query_same_listing; unfold clients_query; lookups;
    by rewrite non_blank_trim, pattern_of_trim.
Qed.

(** X12. With no active parameter ([search] and [phone] absent or blank,
    [status] absent, empty or ["all"], [sort_by] absent or empty) the
    listing query is the one of the first revision of the server: the
    clients joined with their status name, by [id] ascending. *)
Theorem listing_without_parameters (rq : gmap string jsstring) :
  (rq !! "search" = None \/ exists t, rq !! "search" = Some t /\ blank t) ->
  (rq !! "status" = None \/ rq !! "status" = Some []
   \/ rq !! "status" = Some (lit "all")) ->
  (rq !! "phone" = None \/ exists t, rq !! "phone" = Some t /\ blank t) ->
  (rq !! "sort_by" = None \/ rq !! "sort_by" = Some []) ->
  clients_query rq = plain_listing_query
  /\ forall (E : env) (tr : list event) (req : request),
       exists r,
         (run E tr (IndexJs.get_clients req)).1
         = tr ++ [EvQuery plain_listing_query r].
Proof.
  intros Hs Hst Hp Hso. split.
  - assert (H1 : non_blank (rq !! "search") = false).
    { destruct Hs as [-> | (t & -> & Ht)];
        [reflexivity | by apply non_blank_blank]. }
    assert (H2 : non_blank (rq !! "phone") = false).
    { destruct Hp as [-> | (t & -> & Ht)];
        [reflexivity | by apply non_blank_blank]. }
    unfold clients_query. rewrite H1, H2.
    destruct Hst as [-> | [-> | ->]], Hso as [-> | ->]; reflexivity.
  - intros E tr req. unfold IndexJs.get_clients. cbn.
    match goal with |- context [error ?x] => destruct (error x) end;
      eexists; reflexivity.
Qed.

Lemma listing_without_parameters_witness :
  clients_query {[ "search" := lit " "; "status" := lit "all";
                   "sort_by" := [] ]}
  = plain_listing_query.
Proof.
  refine (proj1 (listing_without_parameters _ _ _ _ _)).
  - right. exists (lit " "). split; [reflexivity | repeat constructor].
  - right. right. reflexivity.
  - left. reflexivity.
  - right. reflexivity.
Defined.

(** X18. Further parameters that impose nothing: a blank [phone], an empty
    [status] and an empty [sort_by] give the same listing as the request
    without the parameter; without a sort key [sort_order] is ignored; and
    any [sort_order] other than ["desc"] gives the same listing as none. *)
Theorem listing_neutral_parameters (rq : gmap string jsstring) :
  (forall t : jsstring,
     blank t -> same_listing (<["phone" := t]> rq) (delete "phone" rq))
  /\ same_listing (<["status" := []]> rq) (delete "status" rq)
  /\ same_listing (<["sort_by" := []]> rq) (delete "sort_by" rq)
  /\ (forall o : jsstring,
        rq !! "sort_by" = None \/ rq !! "sort_by" = Some [] ->
        same_listing (<["sort_order" := o]> rq) rq)
  /\ (forall o : jsstring,
        o <> lit "desc" ->
        same_listing (<["sort_order" := o]> rq) (delete "sort_order" rq)).
Proof.
  split; [| split; [| split; [| split]]].
  - intros t Ht. apply same_query_same_listing.
    unfold clients_query. lookups.
    rewrite (non_blank_blank t Ht). reflexivity.
  - apply same_query_same_listing. unfold clients_query. lookups.
    reflexivity.
  - apply same_query_same_listing. unfold clients_query. lookups.
    reflexivity.
  - intros o Hk. apply same_query_same_listing.
    unfold clients_query. lookups.
    by destruct Hk as [-> | ->].
  - intros o Ho. apply same_query_same_listing.
    unfold clients_query. lookups.
    assert (H : strict_eq (Some o) "desc" = false)
      by (unfold strict_eq; apply bool_decide_eq_false_2; congruence).
    rewrite !H. reflexivity.
Qed.

Lemma listing_neutral_parameters_witness :
  let rq : gmap string jsstring := {[ "search" := lit "ann" ]} in
  same_listing (<["phone" := lit " "]> rq) (delete "phone" rq)
  /\ same_listing (<["sort_order" := lit "desc"]> rq) rq
  /\ same_listing (<["sort_order" := lit "DESC"]> rq)
       (delete "sort_order" rq).
Proof.
  intros rq. split; [| split].
  - apply (proj1 (listing_neutral_parameters rq) (lit " ")).
    repeat constructor.
  - apply (proj1 (proj2 (proj2 (proj2 (listing_neutral_parameters rq))))
             (lit "desc")).
    left. reflexivity.
  - apply (proj2 (proj2 (proj2 (proj2 (listing_neutral_parameters rq))))
             (lit "DESC")).
    discriminate.
Defined.

(** ** The revisions before the sessions and the latest one *)

(** X13. The handlers of the revisions without sessions against their
    latest versions, for every store.  The landing page, the filtered
    listing, the two forms, the create, the update and the delete have the
    events of their latest version and the same answer, apart from the
    [user] local added to the views.  The listing of the first revision is
    different: it sends one query, the plain listing, and renders the
    clients only; the latest listing without active parameter sends that
    query first, answers the same when it fails, and otherwise goes on to
    read the statuses, which the first revision never does. *)
Theorem earlier_revisions_agree (E : env) (tr : list event) (req : request)
    (s : session) :
  let agree (old : request -> prog response) (new : handler) :=
    run E tr (old req)
    = ((run E tr (new req s)).1, forget_session (run E tr (new req s)).2) in
  let r := store E tr plain_listing_query in
  agree IndexJs.get_root get_root
  /\ agree Filters.get_clients get_clients
  /\ agree IndexJs.get_clients_new get_clients_new
  /\ agree IndexJs.post_clients post_clients
  /\ agree IndexJs.get_clients_edit get_clients_edit
  /\ agree IndexJs.put_clients put_clients
  /\ agree IndexJs.delete_clients delete_clients
  /\ run E tr (IndexJs.get_clients req)
     = (tr ++ [EvQuery plain_listing_query r],
        inr (match error r with
             | Some e => send (Str (message e))
             | None => Render "clients/index" [("clients", LRows (data r))]
             end))
  /\ (clients_query (query req) = plain_listing_query ->
        (forall e, error r = Some e ->
                   agree IndexJs.get_clients get_clients)
        /\ (error r = None ->
              exists r',
                (run E tr (get_clients req s)).1
                = (run E tr (IndexJs.get_clients req)).1
                  ++ [EvQuery statuses_query r']
                /\ run E tr (IndexJs.get_clients req)
                   <> ((run E tr (get_clients req s)).1,
                       forget_session (run E tr (get_clients req s)).2))).
Proof.
  cbv zeta.
  assert (Hold : run E tr (IndexJs.get_clients req)
                 = (tr ++ [EvQuery plain_listing_query
                             (store E tr plain_listing_query)],
                    inr (match error (store E tr plain_listing_query) with
                         | Some e => send (Str (message e))
                         | None =>
                             Render "clients/index"
                               [("clients",
                                 LRows (data (store E tr
                                                plain_listing_query)))]
                         end))).
  { change (run E tr (IndexJs.get_clients req))
      with (run E (tr ++ [EvQuery plain_listing_query
                            (store E tr plain_listing_query)])
              (match error (store E tr plain_listing_query) with
               | Some e => Ret (send (Str (message e)))
               | None =>
                   Ret (Render "clients/index"
                          [("clients",
                            LRows (data (store E tr plain_listing_query)))])
               end)).
    by destruct (error (store E tr plain_listing_query)). }
  repeat match goal with |- _ /\ _ => split end;
    try solve
      [ cbn -[forget_session];
        repeat (match goal with
                | |- context [error ?x] => destruct (error x) eqn:?
                end; cbn -[forget_session]);
        reflexivity ].
  - exact Hold.
  - intros Hq. rewrite Hold, get_clients_run. cbv zeta. rewrite Hq. split.
    + intros e ->. reflexivity.
    + intros ->. eexists. split; [reflexivity |].
      intros H. apply (f_equal fst) in H. cbn [fst] in H.
      apply (f_equal length) in H. rewrite !length_app in H.
      cbn in H. lia.
Qed.

Lemma earlier_revisions_agree_witness :
  run store_down [] (IndexJs.get_clients (Request ∅ ∅ ∅))
  = ((run store_down [] (get_clients (Request ∅ ∅ ∅) (Session None))).1,
     forget_session
       (run store_down [] (get_clients (Request ∅ ∅ ∅) (Session None))).2).
Proof.
  refine (proj1 (proj2 (proj2 (proj2 (proj2 (proj2 (proj2 (proj2 (proj2
            (earlier_revisions_agree store_down [] (Request ∅ ∅ ∅)
               (Session None)))))))))
            _)
            (PgError (lit "fetch failed")) _).
  - reflexivity.
  - reflexivity.
Defined.

(** ** What the handlers never send to the store *)

(** X14. No update and no delete is ever sent without its filter: in every
    run of every route, a query that updates or deletes is on [clients],
    carries the single filter [id = :id] of the request, and comes from the
    update or the delete route with a logged-in session. *)
Theorem writes_are_filtered_by_id (E : env) (r : route) (req : request)
    (s : session) (q : builder) (res : result (list object)) :
  EvQuery q res ∈ (run E [] (app r req s)).1 ->
  (op q = Delete \/ exists v, op q = Update v) ->
  table q = "clients"
  /\ mods q = [Eq (lit "id") (of_param (params req !! "id"))]
  /\ is_Some (user s)
  /\ (r = PutClients \/ r = DeleteClients).
Proof.
  destruct r; unfold app, requireAuth; destruct (user s) eqn:Hu;
    goal_cases; intros Hin Hop; elem_cases Hin;
    injection Hin as -> _;
    try (destruct Hop as [Hop | [v Hop]]; discriminate Hop);
    try (destruct Hop as [Hop | [v Hop]];
         apply (f_equal is_write) in Hop;
         rewrite (proj2 (clients_query_select _)) in Hop;
         discriminate Hop);
    (split; [reflexivity | split; [reflexivity | split; [by eexists |]]]);
    first [by left | by right].
Qed.

Lemma writes_are_filtered_witness :
  let req := Request ∅ ∅ {[ "id" := lit "7" ]} in
  mods (delete_client_query (Some (lit "7")))
  = [Eq (lit "id") (of_param (params req !! "id"))].
Proof.
  intros req.
  refine (proj1 (proj2 (writes_are_filtered_by_id store_down DeleteClients
                          req (Session (Some ∅))
                          (delete_client_query (Some (lit "7")))
                          (Result None (Some (PgError (lit "fetch failed"))))
                          _ _))).
  - simpl. apply list_elem_of_here.
  - left. reflexivity.
Defined.

(** X15. The routes registered with [app.get] never write: every query
    they send is a select, and the landing page, the two forms and the
    logout send none.  The client routes only touch [clients] and
    [client_status]; the other routes only touch [users]. *)
Theorem gets_only_read (E : env) (r : route) (req : request) (s : session)
    (ev : event) (q : builder) :
  ev ∈ (run E [] (app r req s)).1 ->
  event_query ev = Some q ->
  (is_get r = true -> is_write (op q) = false)
  /\ (r ∈ client_routes -> table q = "clients" \/ table q = "client_status")
  /\ (r ∉ client_routes -> table q = "users")
  /\ r ∉ [GetRoot; GetRegister; GetLogin; GetLogout].
Proof.
  destruct r; unfold app, requireAuth; destruct (user s) eqn:Hu;
    goal_cases; intros Hin Hq; elem_cases Hin; subst ev;
    try discriminate Hq; injection Hq as <-;
    (split; [| split; [| split]]);
    try (intros Hg; discriminate Hg);
    try (intros _; reflexivity);
    try (intros _; rewrite (proj2 (clients_query_select _)); reflexivity);
    try (intros _; left; apply (proj1 (clients_query_select _)));
    try (intros _; first [by left | by right]);
    try (intros Hn; exfalso; apply Hn; unfold client_routes;
         repeat first [apply list_elem_of_here | apply list_elem_of_further]);
    try (intros Hr; unfold client_routes in Hr; not_client_route Hr);
    intros Hr; elem_cases Hr.
Qed.

Lemma gets_only_read_witness :
  let req := Request {[ "search" := lit "ann" ]} ∅ ∅ in
  is_write (op (clients_query (query req))) = false.
Proof.
  intros req.
  refine (proj1 (gets_only_read store_down GetClients req (Session (Some ∅))
                   (EvQuery (clients_query (query req))
                      (Result None (Some (PgError (lit "fetch failed")))))
                   (clients_query (query req)) _ _) _).
  - simpl. apply list_elem_of_here.
  - reflexivity.
  - reflexivity.
Defined.

(** X16. No retry: a request sends at most two queries to the store, and
    never the same query twice, whatever the store answers. *)
Theorem at_most_two_queries_no_retry (E : env) (r : route) (req : request)
    (s : session) :
  (length (queries (run E [] (app r req s)).1) <= 2)%nat
  /\ NoDup (queries (run E [] (app r req s)).1).
Proof.
  destruct r; unfold app, requireAuth; try destruct (user s);
    goal_cases; (split; [lia |]);
    repeat (apply NoDup_cons; split;
            [first
               [ apply not_elem_of_nil
               | rewrite list_elem_of_singleton; intros Heq;
                 first
                   [ discriminate Heq
                   | apply (f_equal table) in Heq;
                     rewrite ?(proj1 (clients_query_select _)) in Heq;
                     discriminate Heq ] ] |]);
    apply NoDup_nil_2.
Qed.

(** ** Configuration *)

(** X17. The session secret and the port fall back to their defaults when
    the environment variable is unset and also when it is set to the empty
    string: the secret is then the fixed text [supersecretkey] and the port
    3000; a non-empty variable is used as given.  Neither is ever empty. *)
Theorem configuration_defaults (v : option jsstring) :
  ((v = None \/ v = Some []) ->
     session_secret v = VStr (lit "supersecretkey") /\ PORT v = VNum 3000)
  /\ (forall t, v = Some t -> t <> [] ->
        session_secret v = VStr t /\ PORT v = VStr t)
  /\ truthy (session_secret v) = true
  /\ truthy (PORT v) = true.
Proof.
  unfold session_secret, PORT, js_or.
  split; [| split; [| split]].
  - by intros [-> | ->].
  - intros t -> Ht. simpl. by rewrite bool_decide_eq_false_2.
  - destruct v as [t|]; simpl; [| reflexivity].
    case_bool_decide; simpl; [reflexivity |].
    by rewrite bool_decide_eq_false_2.
  - destruct v as [t|]; simpl; [| reflexivity].
    case_bool_decide; simpl; [reflexivity |].
    by rewrite bool_decide_eq_false_2.
Qed.

Lemma configuration_defaults_witness :
  (session_secret (Some []) = VStr (lit "supersecretkey")
   /\ PORT (Some []) = VNum 3000)
  /\ (session_secret (Some (lit "8080")) = VStr (lit "8080")
      /\ PORT (Some (lit "8080")) = VStr (lit "8080")).
Proof.
  split.
  - refine (proj1 (configuration_defaults (Some [])) _). right. reflexivity.
  - refine (proj1 (proj2 (configuration_defaults (Some (lit "8080"))))
              (lit "8080") _ _).
    + reflexivity.
    + discriminate.
Defined.
